(** * LightWave2D detectors: a shallow embedding of [LightWave2D/detector.py]

    The module defines two passive probes of a 2D field simulation,
    [PointDetector] and [CircularDetector].  Both resolve their physical
    position through the [Grid] collaborator when they are built and later
    slice a field tensor (time x row x column) in [update_data].

    Conventions of the embedding:
    - Python integers are [Z]; array extents and list positions are [nat].
    - A numpy array is a nested list together with its [shape]; the shape is
      kept explicitly so that arrays with an empty axis keep their other
      extents, as in numpy.
    - A Python call that may raise is a function into [result]: [inl e] is
      the raised exception, [inr v] the returned value.
    - An attribute that has not been assigned yet is [None]. *)

From Stdlib Require Import String ZArith List Bool Lia FinFun Sorted.
Import ListNotations.
Open Scope Z_scope.

Set Implicit Arguments.

(** ** Exceptions and the error monad *)

Inductive exception : Type :=
| OutOfBounds (what : string)   (* raised by the Grid for unresolvable coordinates *)
| IndexError                    (* numpy / tuple indexing out of range, mask shape mismatch *)
| ValueError                    (* slice step of zero *)
| AttributeError (name : string) (* reading an attribute that was never assigned *)
| Cv2Error                      (* assertion failure inside the rasterizer *)
| NotModelled.                  (* rasterizer arguments outside the modelled fragment *)

Definition result (A : Type) : Type := (exception + A)%type.

Definition raise {A : Type} (e : exception) : result A := inl e.
Definition ret {A : Type} (a : A) : result A := inr a.

Definition bind {A B : Type} (m : result A) (k : A -> result B) : result B :=
  match m with
  | inl e => inl e
  | inr a => k a
  end.

Notation "x <- m ;; k" := (bind m (fun x => k))
  (at level 61, m at next level, right associativity).

(** ** Scalars

    Field samples, time stamps and angles are numpy scalars (real or complex
    floating point).  Their arithmetic is not interpreted: the detector only
    moves them around, takes magnitudes, adds them up and calls [arctan2] on
    integer offsets.  The operations are an interface. *)

Class Numeric (V : Type) : Type := {
  zero : V;                      (* numpy.zeros fill value *)
  absolute : V -> V;             (* abs(...) *)
  add : V -> V -> V;             (* the + used by ndarray.sum *)
  arctan2 : Z -> Z -> V          (* numpy.arctan2 on integer arguments *)
}.

(** ** numpy arrays *)

Record array2 (A : Type) : Type := Array2 {
  shape2 : nat * nat;
  rows2 : list (list A)
}.

Record array3 (A : Type) : Type := Array3 {
  shape3 : nat * nat * nat;
  frames3 : list (list (list A))
}.

Definition well_shaped_rows {A : Type} (nr nc : nat) (rows : list (list A)) : bool :=
  Nat.eqb (length rows) nr && forallb (fun r => Nat.eqb (length r) nc) rows.

Definition well_shaped2 {A : Type} (a : array2 A) : bool :=
  well_shaped_rows (fst (shape2 a)) (snd (shape2 a)) (rows2 a).

Definition well_shaped3 {A : Type} (f : array3 A) : bool :=
  let '(nt, nr, nc) := shape3 f in
  Nat.eqb (length (frames3 f)) nt && forallb (well_shaped_rows nr nc) (frames3 f).

(** The result of an expression whose rank depends on the index used. *)
Inductive ndarray (A : Type) : Type :=
| Arr0 (v : A)
| Arr1 (l : list A)
| Arr2 (a : array2 A).

Arguments Arr0 {A} v.
Arguments Arr1 {A} l.
Arguments Arr2 {A} a.

Section Numpy.
Context {A : Type}.

(** [numpy.zeros(shape)] for a two-dimensional shape. *)
Definition numpy_zeros2 (z : A) (shape : nat * nat) : array2 A :=
  Array2 shape (repeat (repeat z (snd shape)) (fst shape)).

(** [numpy.zeros(n)]. *)
Definition numpy_zeros1 (z : A) (n : nat) : list A := repeat z n.

(** Element-wise map over a 2D array; the shape is kept. *)
Definition map2d {B : Type} (f : A -> B) (a : array2 A) : array2 B :=
  Array2 (shape2 a) (map (map f) (rows2 a)).

(** Positions of the [true] entries of one row, counted from [k]. *)
Fixpoint where_true_from (k : nat) (l : list bool) : list nat :=
  match l with
  | [] => []
  | b :: l' => if b then k :: where_true_from (S k) l' else where_true_from (S k) l'
  end.

(** [numpy.argwhere] on a 2D boolean array: the (row, column) pairs of the
    true cells, rows first, columns within a row ascending. *)
Fixpoint argwhere_from (i : nat) (rows : list (list bool)) : list (Z * Z) :=
  match rows with
  | [] => []
  | r :: rs =>
      map (fun j => (Z.of_nat i, Z.of_nat j)) (where_true_from 0 r)
        ++ argwhere_from (S i) rs
  end.

Definition count_true_row (l : list bool) : nat := length (filter (fun b => b) l).

Definition count_true (rows : list (list bool)) : nat :=
  list_sum (map count_true_row rows).

(** Cells of one row of values kept by one row of the mask. *)
Fixpoint select_row (bs : list bool) (vs : list A) : list A :=
  match bs, vs with
  | b :: bs', v :: vs' => if b then v :: select_row bs' vs' else select_row bs' vs'
  | _, _ => []
  end.

(** Cells of one frame kept by the mask, in C (row-major) order. *)
Fixpoint select_frame (mask : list (list bool)) (frame : list (list A)) : list A :=
  match mask, frame with
  | bs :: mask', vs :: frame' => select_row bs vs ++ select_frame mask' frame'
  | _, _ => []
  end.

(** [field[:, mask]] for a 3D [field] and a 2D boolean [mask]: numpy raises
    IndexError unless the mask has the shape of the two trailing axes. *)
Definition getitem_mask (field : array3 A) (mask : array2 bool) : result (array2 A) :=
  let '(nt, nr, nc) := shape3 field in
  if Nat.eqb (fst (shape2 mask)) nr && Nat.eqb (snd (shape2 mask)) nc
  then ret (Array2 (nt, count_true (rows2 mask))
                   (map (select_frame (rows2 mask)) (frames3 field)))
  else raise IndexError.

(** An integer index on an axis of extent [n]: negative indices count from
    the end, anything outside [-n, n) raises IndexError. *)
Definition normalize_index (i : Z) (n : nat) : result nat :=
  if (0 <=? i) && (i <? Z.of_nat n) then ret (Z.to_nat i)
  else if (- Z.of_nat n <=? i) && (i <? 0) then ret (Z.to_nat (i + Z.of_nat n))
  else raise IndexError.

(** The cell (r, c) of one frame. *)
Definition cell (d : A) (frame : list (list A)) (r c : nat) : A :=
  nth c (nth r frame []) d.

(** [field[t, r, c]] for in-range natural indices. *)
Definition item3 (d : A) (field : array3 A) (t r c : nat) : A :=
  cell d (nth t (frames3 field) []) r c.

(** [field[:, i, j]]. *)
Definition getitem_point (d : A) (field : array3 A) (i j : Z) : result (list A) :=
  let '(nt, nr, nc) := shape3 field in
  r <- normalize_index i nr ;;
  c <- normalize_index j nc ;;
  ret (map (fun frame => cell d frame r c) (frames3 field)).

(** [a.T] of a 2D array. *)
Definition transpose2 (d : A) (a : array2 A) : array2 A :=
  let '(nr, nc) := shape2 a in
  Array2 (nc, nr) (map (fun j => map (fun row => nth j row d) (rows2 a)) (seq 0 nc)).

(** [a[i, :]] for a natural [i]. *)
Definition row2 (a : array2 A) (i : nat) : list A := nth i (rows2 a) [].
End Numpy.

(** [numpy.argwhere(m)]: an (M, 2) integer array. *)
Definition numpy_argwhere (m : array2 bool) : array2 Z :=
  let l := argwhere_from 0 (rows2 m) in
  Array2 (length l, 2%nat) (map (fun p => [fst p; snd p]) l).

(** [a.astype(bool)] on an integer raster: nonzero becomes [True]. *)
Definition astype_bool (a : array2 Z) : array2 bool :=
  map2d (fun v => negb (v =? 0)) a.

(** [m == 1] and [m != 0] on a boolean array ([True] compares as 1). *)
Definition eq_scalar (m : array2 bool) (k : Z) : array2 bool :=
  map2d (fun b => Z.b2z b =? k) m.

Definition ne_scalar (m : array2 bool) (k : Z) : array2 bool :=
  map2d (fun b => negb (Z.b2z b =? k)) m.

(** ** Slices, magnitudes and sums *)

(** What [plot_data] accepts as [slc]: an integer or a [slice(start, stop, step)]. *)
Inductive index : Type :=
| Int (i : Z)
| Slice (start stop step : option Z).

(** Python's [slice.indices(length)]: the clamped (start, stop, step). *)
Definition slice_indices (start stop step : option Z) (length : Z) : result (Z * Z * Z) :=
  let step' := match step with None => 1 | Some s => s end in
  if step' =? 0 then raise ValueError
  else
    let lower := if step' <? 0 then -1 else 0 in
    let upper := if step' <? 0 then length - 1 else length in
    let clamp (v : Z) := if v <? 0 then Z.max (v + length) lower else Z.min v upper in
    let start' := match start with
                  | None => if step' <? 0 then upper else lower
                  | Some v => clamp v
                  end in
    let stop' := match stop with
                 | None => if step' <? 0 then lower else upper
                 | Some v => clamp v
                 end in
    ret (start', stop', step').

(** The positions visited by [range(start, stop, step)], [step <> 0]. *)
Definition range_positions (start stop step : Z) : list nat :=
  let n := if 0 <? step
           then (if start <? stop then (stop - start - 1) / step + 1 else 0)
           else (if stop <? start then (start - stop - 1) / (- step) + 1 else 0) in
  map (fun k => Z.to_nat (start + Z.of_nat k * step)) (seq 0 (Z.to_nat n)).

Section Reductions.
Context {V : Type} `{Numeric V}.

(** [data[slc]] on a 2D array: an integer drops the leading axis, a slice
    keeps it. *)
Definition getitem_time (data : array2 V) (slc : index) : result (ndarray V) :=
  let '(nt, nm) := shape2 data in
  match slc with
  | Int i =>
      t <- normalize_index i nt ;;
      ret (Arr1 (row2 data t))
  | Slice start stop step =>
      s <- slice_indices start stop step (Z.of_nat nt) ;;
      let '(start', stop', step') := s in
      let ts := range_positions start' stop' step' in
      ret (Arr2 (Array2 (length ts, nm) (map (row2 data) ts)))
  end.

(** [abs(a)], element-wise at every rank. *)
Definition numpy_abs (a : ndarray V) : ndarray V :=
  match a with
  | Arr0 v => Arr0 (absolute v)
  | Arr1 l => Arr1 (map absolute l)
  | Arr2 m => Arr2 (map2d absolute m)
  end.

(** Sum of a sequence: the additive identity when empty, otherwise the
    elements added from first to last.  ([add] is left uninterpreted; the
    order in which numpy groups the terms of a long floating-point sum is
    not part of the model.) *)
Definition sum_list (l : list V) : V :=
  match l with
  | [] => zero
  | v :: l' => fold_left add l' v
  end.

(** [a.sum(axis=0)]: the leading axis is summed away, so an array of rank
    one collapses to a scalar and a (k, M) array to M column sums. *)
Definition sum_axis0 (a : ndarray V) : result (ndarray V) :=
  match a with
  | Arr0 _ => raise IndexError
  | Arr1 l => ret (Arr0 (sum_list l))
  | Arr2 m =>
      ret (Arr1 (map (fun j => sum_list (map (fun row => nth j row zero) (rows2 m)))
                     (seq 0 (snd (shape2 m)))))
  end.
End Reductions.

(** ** The Grid collaborator *)

(** A position as the caller states it: a physical value or a symbolic
    token such as "center" ([float | str] in the annotations). *)
Inductive coordinate (V : Type) : Type :=
| Value (v : V)
| Token (s : string).

Arguments Value {V} v.
Arguments Token {V} s.

Module Position.
(** Modelled from the spec: the value returned by the Grid's coordinate
    resolution (only its attributes [x], [y], [x_index], [y_index] are
    read by the detectors): the physical pair and the resolved index pair. *)
Record t (V : Type) : Type := Make {
  x : V;
  y : V;
  x_index : Z;
  y_index : Z
}.
End Position.

(** Modelled from the spec: the Grid collaborator (module LightWave2D.grid is
    not among the sources).  It provides the coordinate-resolution function,
    which either fails or returns a resolved position, the raster shape
    (rows, columns), the number of time steps and the time stamps. *)
Record Grid (V : Type) : Type := {
  shape : nat * nat;
  n_steps : nat;
  time_stamp : list V;
  get_coordinate : coordinate V -> coordinate V -> result (Position.t V)
}.

(** ** The rasterizer

    [cv2.ellipse(img, center, axes, angle, startAngle, endAngle, color
    [, thickness[, lineType[, shift]]])] belongs to OpenCV, not to this
    repository.  What is modelled is its documented contract on the
    fragment the detector uses (no rotation, full sweep, line width at
    most one cell):
    - points are (x, y) = (column, row), and [axes] are the half extents
      along x and along y;
    - [thickness] defaults to 1; a non-negative thickness draws the outline
      of the ellipse, a negative one (cv2.FILLED) fills it;
    - negative axes are rejected; drawing is clipped to the image;
    - the image is written in place: cells that are not drawn keep their
      value.
    The digital ellipse is taken to be the set of cells that satisfy the
    ellipse inequality, and its outline the cells of that set with a
    4-neighbour outside it.  OpenCV's polygonal approximation of the curve
    may differ from this idealisation in single cells next to the curve. *)

Module cv2.
(** The default of the optional argument [thickness]. *)
Definition default_thickness : Z := 1.

(** The cell (px, py) lies in the closed ellipse around [center] with half
    extents [axes]. *)
Definition in_ellipse (center axes : Z * Z) (px py : Z) : bool :=
  let dx := px - fst center in
  let dy := py - snd center in
  let a := fst axes in
  let b := snd axes in
  (Z.abs dx <=? a) && (Z.abs dy <=? b)
    && (dx * dx * (b * b) + dy * dy * (a * a) <=? a * a * (b * b)).

(** The four neighbours of the cell are all in the ellipse. *)
Definition surrounded (center axes : Z * Z) (px py : Z) : bool :=
  in_ellipse center axes (px + 1) py && in_ellipse center axes (px - 1) py
    && in_ellipse center axes px (py + 1) && in_ellipse center axes px (py - 1).

Definition on_outline (center axes : Z * Z) (px py : Z) : bool :=
  in_ellipse center axes px py && negb (surrounded center axes px py).

(** The value stored in a single-channel 8-bit image for a colour. *)
Definition channel_value (color : Z * Z * Z) : Z :=
  Z.max 0 (Z.min 255 (fst (fst color))).

Fixpoint paint_row (hit : Z -> bool) (v : Z) (j : nat) (row : list Z) : list Z :=
  match row with
  | [] => []
  | old :: row' =>
      (if hit (Z.of_nat j) then v else old) :: paint_row hit v (S j) row'
  end.

Fixpoint paint_rows (hit : Z -> Z -> bool) (v : Z) (i : nat) (rows : list (list Z))
  : list (list Z) :=
  match rows with
  | [] => []
  | row :: rows' =>
      paint_row (fun px => hit px (Z.of_nat i)) v 0 row :: paint_rows hit v (S i) rows'
  end.

(** Every cell (row i, column j) with [hit j i] receives [v]. *)
Definition paint (hit : Z -> Z -> bool) (v : Z) (img : array2 Z) : array2 Z :=
  Array2 (shape2 img) (paint_rows hit v 0 (rows2 img)).

(** The call itself.  Rotated or partial ellipses and lines wider than one
    cell are outside the model. *)
Definition ellipse (img : array2 Z) (center axes : Z * Z)
    (angle startAngle endAngle : Z) (color : Z * Z * Z) (thickness : Z)
  : result (array2 Z) :=
  if (fst axes <? 0) || (snd axes <? 0) then raise Cv2Error
  else if negb ((angle =? 0) && (startAngle =? 0) && (endAngle =? 360)
                  && (thickness <=? 1))
  then raise NotModelled
  else if thickness <? 0
  then ret (paint (in_ellipse center axes) (channel_value color) img)
  else ret (paint (on_outline center axes) (channel_value color) img).
End cv2.

(** ** The rendering target (MPSPlots)

    Only the draw commands the detectors issue are recorded. *)

Inductive artist (V : Type) : Type :=
| add_line (x y : list V)
| add_scatter (x y : ndarray V) (style : list (string * string))
| add_circle (position : V * V) (radius : V) (style : list (string * string)).

Record Axis (V : Type) : Type := {
  options : list (string * string);
  artists : list (artist V)
}.

Record SceneList (V : Type) : Type := {
  unit_size : option (Z * Z);
  axes : list (Axis V)
}.

(** Reading an attribute: unassigned attributes raise AttributeError. *)
Definition getattr {A : Type} (name : string) (slot : option A) : result A :=
  match slot with
  | Some v => ret v
  | None => raise (AttributeError name)
  end.

(** [t[i]] on a tuple. *)
Definition tuple_item {A : Type} (t : list A) (i : nat) : result A :=
  match nth_error t i with
  | Some v => ret v
  | None => raise IndexError
  end.

(** ** CircularDetector *)

Module CircularDetector.
Section Model.
Context {V : Type} `{Numeric V}.

(** The object's attributes.  [position] holds the resolved position
    (the constructor overwrites the tuple it was given); [data] and the
    three attributes written by [construct_object] start unassigned. *)
Record t : Type := Make {
  grid : Grid V;
  position : Position.t V;
  radius : V;
  data : option (array2 V);
  object_idx : option (array2 bool);
  object_coordinate_index : option (array2 Z);
  angle_list : option (list V)
}.

Definition set_data (self : t) (d : array2 V) : t :=
  Make (grid self) (position self) (radius self) (Some d)
       (object_idx self) (object_coordinate_index self) (angle_list self).

Definition set_object (self : t) (idx : array2 bool) (coords : array2 Z)
    (angles : list V) : t :=
  Make (grid self) (position self) (radius self) (data self)
       (Some idx) (Some coords) (Some angles).

(** Lines 42-64. *)
Definition construct_object (self : t) : result t :=
  radius_indexes <-
    get_coordinate (grid self) (Value (radius self)) (Value (radius self)) ;;
  let object_idx0 := numpy_zeros2 0 (shape (grid self)) in
  drawn <-
    cv2.ellipse object_idx0
      (Position.y_index (position self), Position.x_index (position self))
      (Position.x_index radius_indexes, Position.y_index radius_indexes)
      0 0 360 (255, 255, 255) cv2.default_thickness ;;
  let object_idx1 := astype_bool drawn in
  let object_coordinate_index1 :=
    transpose2 0 (numpy_argwhere (eq_scalar object_idx1 1)) in
  let angle_list1 :=
    map (fun rc => arctan2 (fst rc - Position.x_index (position self))
                           (snd rc - Position.y_index (position self)))
        (combine (row2 object_coordinate_index1 0)
                 (row2 object_coordinate_index1 1)) in
  ret (set_object self object_idx1 object_coordinate_index1 angle_list1).

(** Lines 34-40: the constructor, given the keyword arguments. *)
Definition __post_init__ (grid0 : Grid V) (position0 : list (coordinate V)) (radius0 : V)
  : result t :=
  px <- tuple_item position0 0 ;;
  py <- tuple_item position0 1 ;;
  resolved <- get_coordinate grid0 px py ;;
  construct_object (Make grid0 resolved radius0 None None None None).

(** Lines 66-67. *)
Definition update_data (self : t) (field : array3 V) : result t :=
  idx <- getattr "object_idx" (object_idx self) ;;
  d <- getitem_mask field (ne_scalar idx 0) ;;
  ret (set_data self d).

(** Line 73: the quantity handed to the scatter plot. *)
Definition aggregate (self : t) (slc : index) : result (ndarray V) :=
  d <- getattr "data" (data self) ;;
  selected <- getitem_time d slc ;;
  sum_axis0 (numpy_abs selected).

Definition default_slc : index := Int (-1).

(** Lines 69-77. *)
Definition plot_data (self : t) (slc : index) : result (SceneList V) :=
  agg <- aggregate self slc ;;
  angles <- getattr "angle_list" (angle_list self) ;;
  let ax := Build_Axis [("projection"%string, "polar"%string)]
              [add_scatter (Arr1 angles) agg []] in
  ret (Build_SceneList (Some (5, 5)) [ax]).

(** Lines 88-95. *)
Definition add_to_ax (self : t) (ax : Axis V) : Axis V :=
  Build_Axis (options ax)
    (artists ax ++
       [add_circle (Position.x (position self), Position.y (position self))
          (radius self)
          [("label"%string, "detector"%string); ("facecolor"%string, "none"%string); ("edgecolor"%string, "black"%string)]]).

(** Lines 79-86. *)
Definition plot (self : t) : SceneList V :=
  Build_SceneList None [add_to_ax self (Build_Axis [("aspect_ratio"%string, "equal"%string)] [])].

(** The operations of the class as calls on an object: what is returned
    and the object afterwards. *)
Inductive method : Type :=
| ConstructObject
| UpdateData (field : array3 V)
| PlotData (slc : index)
| Plot
| AddToAx (ax : Axis V).

Inductive returned : Type :=
| RNone
| RScene (s : SceneList V)
| RAxis (ax : Axis V).

Definition invoke (m : method) (self : t) : result (returned * t) :=
  match m with
  | ConstructObject => self' <- construct_object self ;; ret (RNone, self')
  | UpdateData field => self' <- update_data self field ;; ret (RNone, self')
  | PlotData slc => s <- plot_data self slc ;; ret (RScene s, self)
  | Plot => ret (RScene (plot self), self)
  | AddToAx ax => ret (RAxis (add_to_ax self ax), self)
  end.

(** Member cell [m] as a (row, column) pair, read off the 2 x M array. *)
Definition member_coordinate (coords : array2 Z) (m : nat) : Z * Z :=
  (nth m (row2 coords 0) 0, nth m (row2 coords 1) 0).

(** The value of the mask at a grid cell. *)
Definition mask_at (idx : array2 bool) (r c : nat) : bool :=
  cell false (rows2 idx) r c.

Definition is_update_data (m : method) : bool :=
  match m with
  | UpdateData _ => true
  | _ => false
  end.

(** [evolves allow s s']: [s'] is [s] after a sequence of successful
    calls, each of them permitted by [allow]. *)
Inductive evolves (allow : method -> bool) : t -> t -> Prop :=
| evolves_refl : forall s, evolves allow s s
| evolves_step : forall s s' s'' m v,
    evolves allow s s' ->
    allow m = true ->
    invoke m s' = inr (v, s'') ->
    evolves allow s s''.

(** The detectors a program can hold: built by the constructor, then
    used through the methods of the class. *)
Definition reachable (self : t) : Prop :=
  exists grid0 position0 radius0 s0,
    __post_init__ grid0 position0 radius0 = inr s0 /\
    evolves (fun _ => true) s0 self.

(** The geometry attributes are the ones [construct_object] computes. *)
Definition built (self : t) : Prop := construct_object self = inr self.



End Model.

Arguments t V : clear implicits.
Arguments method V : clear implicits.
Arguments returned V : clear implicits.
End CircularDetector.

(** ** PointDetector *)

Module PointDetector.
Section Model.
Context {V : Type} `{Numeric V}.

Record t : Type := Make {
  grid : Grid V;
  position : Position.t V;
  data : list V
}.

(** Lines 112-121. *)
Definition __post_init__ (grid0 : Grid V) (position0 : coordinate V * coordinate V)
  : result t :=
  resolved <- get_coordinate grid0 (fst position0) (snd position0) ;;
  ret (Make grid0 resolved (numpy_zeros1 zero (n_steps grid0))).

(** Lines 123-130. *)
Definition update_data (self : t) (field : array3 V) : result t :=
  d <- getitem_point zero field (Position.x_index (position self))
                     (Position.y_index (position self)) ;;
  ret (Make (grid self) (position self) d).

(** Lines 132-142. *)
Definition plot_data (self : t) : SceneList V :=
  Build_SceneList None
    [Build_Axis [] [add_line (time_stamp (grid self)) (data self)]].

(** Lines 144-157. *)
Definition add_to_ax (self : t) (ax : Axis V) : Axis V :=
  Build_Axis (options ax)
    (artists ax ++
       [add_scatter (Arr0 (Position.x (position self)))
          (Arr0 (Position.y (position self)))
          [("color"%string, "black"%string); ("marker_size"%string, "20"%string); ("label"%string, "detector"%string)]]).

Inductive method : Type :=
| UpdateData (field : array3 V)
| PlotData
| AddToAx (ax : Axis V).

Inductive returned : Type :=
| RNone
| RScene (s : SceneList V)
| RAxis (ax : Axis V).

Definition invoke (m : method) (self : t) : result (returned * t) :=
  match m with
  | UpdateData field => self' <- update_data self field ;; ret (RNone, self')
  | PlotData => ret (RScene (plot_data self), self)
  | AddToAx ax => ret (RAxis (add_to_ax self ax), self)
  end.
End Model.

Arguments t V : clear implicits.
Arguments method V : clear implicits.
Arguments returned V : clear implicits.
End PointDetector.

(** The mask [construct_object] stores for a resolved centre [p] and a
    resolved radius pair [ri]: the raster of the grid's shape after the
    rasterizer call of lines 47-55 and the conversion of line 57. *)
Definition outline_mask {V : Type} (g : Grid V) (p ri : Position.t V) : array2 bool :=
  astype_bool
    (cv2.paint
       (cv2.on_outline (Position.y_index p, Position.x_index p)
                       (Position.x_index ri, Position.y_index ri))
       255 (numpy_zeros2 0 (shape g))).

(** ** A concrete instance for evaluation

    Symbolic scalars: exact integers, and angles kept as the unevaluated
    [arctan2] of their two arguments. *)

Inductive symbolic : Type :=
| Exact (z : Z)
| Atan2 (dy dx : Z).

#[export] Instance symbolic_numeric : Numeric symbolic := {
  zero := Exact 0;
  absolute := fun v => match v with Exact z => Exact (Z.abs z) | Atan2 _ _ => v end;
  add := fun u v => match u, v with Exact a, Exact b => Exact (a + b) | _, _ => u end;
  arctan2 := Atan2
}.

(** A grid of the given shape with [sx] cells per physical unit along the
    rows and [sy] along the columns: an exact value [v] is resolved to the
    index [v * s] on each axis; anything that is not inside the grid is
    refused. *)
Definition pitch_grid (rows cols steps : nat) (sx sy : Z) : Grid symbolic := {|
  shape := (rows, cols);
  n_steps := steps;
  time_stamp := map (fun k => Exact (Z.of_nat k)) (seq 0 steps);
  get_coordinate := fun cx cy =>
    match cx, cy with
    | Value (Exact u), Value (Exact v) =>
        let i := u * sx in
        let j := v * sy in
        if (0 <=? i) && (i <? Z.of_nat rows) && (0 <=? j) && (j <? Z.of_nat cols)
        then ret (Position.Make (Exact u) (Exact v) i j)
        else raise (OutOfBounds "coordinate outside the grid")
    | _, _ => raise (OutOfBounds "unknown token")
    end
|}.

(** The grid whose physical unit is one cell in both directions. *)
Definition unit_grid (rows cols steps : nat) : Grid symbolic :=
  pitch_grid rows cols steps 1 1.

(** A 3 x 3 grid with a detector of radius one cell around the middle cell,
    and a two-step field history: a ramp, then its negation. *)
Definition small_ring : result (CircularDetector.t symbolic) :=
  CircularDetector.__post_init__ (unit_grid 3 3 2) [Value (Exact 1); Value (Exact 1)] (Exact 1).

Definition ramp_field : array3 symbolic :=
  Array3 (2%nat, 3%nat, 3%nat)
    [ [ [Exact 1; Exact 2; Exact 3]; [Exact 4; Exact 5; Exact 6]; [Exact 7; Exact 8; Exact 9] ];
      [ [Exact (-1); Exact (-2); Exact (-3)]; [Exact (-4); Exact (-5); Exact (-6)];
        [Exact (-7); Exact (-8); Exact (-9)] ] ].

Definition small_ring_updated : result (CircularDetector.t symbolic) :=
  self <- small_ring ;; CircularDetector.update_data self ramp_field.



Definition small_point : result (PointDetector.t symbolic) :=
  PointDetector.__post_init__ (unit_grid 3 3 2) (Value (Exact 1), Value (Exact 2)).

(** ** Notions for the further properties *)

(** Row-major (lexicographic) order on (row, column) pairs. *)
Definition row_major_lt (p q : Z * Z) : Prop :=
  fst p < fst q \/ (fst p = fst q /\ snd p < snd q).

(** [data], once assigned, has one column per entry of [angle_list]. *)
Definition data_fits_angles {V : Type} (self : CircularDetector.t V) : Prop :=
  forall d angles,
    CircularDetector.data self = Some d ->
    CircularDetector.angle_list self = Some angles ->
    snd (shape2 d) = length angles.

(** The ramp history with the sample of the middle cell, which is not a
    member of the 3 x 3 ring, replaced at both time steps. *)
Definition ramp_field_other_middle : array3 symbolic :=
  Array3 (2%nat, 3%nat, 3%nat)
    [ [ [Exact 1; Exact 2; Exact 3]; [Exact 4; Exact 50; Exact 6]; [Exact 7; Exact 8; Exact 9] ];
      [ [Exact (-1); Exact (-2); Exact (-3)]; [Exact (-4); Exact 77; Exact (-6)];
        [Exact (-7); Exact (-8); Exact (-9)] ] ].

(** A one-step history over a 2 x 3 raster. *)
Definition narrow_field : array3 symbolic :=
  Array3 (1%nat, 2%nat, 3%nat)
    [ [ [Exact 1; Exact 2; Exact 3]; [Exact 4; Exact 5; Exact 6] ] ].

(** A history over the 3 x 3 raster without any time entry. *)
Definition empty_field : array3 symbolic := Array3 (0%nat, 3%nat, 3%nat) [].

(** A point detector whose Grid resolved the position to the index pair
    (-1, 1): the last row, counted from the end. *)
Definition wrapped_point : PointDetector.t symbolic :=
  PointDetector.Make (unit_grid 3 3 2) (Position.Make (Exact (-1)) (Exact 1) (-1) 1)
    [Exact 0; Exact 0].

(** * Properties *)

Unset Implicit Arguments.

(** ** The error monad *)

Lemma bind_inr {A B : Type} (m : result A) (k : A -> result B) (b : B) :
  bind m k = inr b -> exists a, m = inr a /\ k a = inr b.
Proof.
  destruct m as [e | a]; simpl; intros E; [discriminate | eauto].
Qed.

Lemma bind_inl {A B : Type} (m : result A) (k : A -> result B) (e : exception) :
  m = inl e -> bind m k = inl e.
Proof. intros ->. reflexivity. Qed.

Ltac invert_bind H :=
  let a := fresh "a" in
  let E := fresh "E" in
  apply bind_inr in H; destruct H as (a & E & H).

(** ** The numpy fragment on small inputs *)

Example normalize_index_wraps_around :
  normalize_index (-1) 5 = inr 4%nat /\ normalize_index 5 5 = inl IndexError /\
  normalize_index (-6) 5 = inl IndexError.
Proof. repeat split. Qed.

Example slice_of_the_last_two :
  slice_indices (Some (-2)) None None 5 = inr (3, 5, 1) /\
  range_positions 3 5 1 = [3%nat; 4%nat].
Proof. split; reflexivity. Qed.

Example slice_reversed_by_two :
  slice_indices None None (Some (-2)) 5 = inr (4, -1, -2) /\
  range_positions 4 (-1) (-2) = [4%nat; 2%nat; 0%nat].
Proof. split; reflexivity. Qed.

Example argwhere_is_row_major :
  argwhere_from 0 [[false; true; true]; [true; false; false]] = [(0, 1); (0, 2); (1, 0)].
Proof. reflexivity. Qed.

Example mask_selection_is_row_major :
  select_frame [[false; true; true]; [true; false; false]] [[1; 2; 3]; [4; 5; 6]]
  = [2; 3; 4].
Proof. reflexivity. Qed.

Example mask_of_the_wrong_shape :
  getitem_mask (Array3 (1%nat, 2%nat, 2%nat) [[[1; 2]; [3; 4]]])
               (Array2 (2%nat, 3%nat) [[true; false; true]; [false; true; false]])
  = inl IndexError.
Proof. reflexivity. Qed.

(** ** Shapes *)

Lemma well_shaped_rows_spec {A : Type} (nr nc : nat) (rows : list (list A)) :
  well_shaped_rows nr nc rows = true <->
  length rows = nr /\ Forall (fun r => length r = nc) rows.
Proof.
  unfold well_shaped_rows.
  rewrite andb_true_iff, Nat.eqb_eq, forallb_forall, Forall_forall.
  split; intros [E F]; split; trivial; intros r I; apply Nat.eqb_eq; auto.
Qed.

Lemma well_shaped_rows_nth {A : Type} (nr nc : nat) (rows : list (list A)) (i : nat) :
  well_shaped_rows nr nc rows = true -> (i < nr)%nat -> length (nth i rows []) = nc.
Proof.
  intros W L. apply well_shaped_rows_spec in W. destruct W as [E F].
  rewrite Forall_forall in F. apply F, nth_In. lia.
Qed.

Lemma well_shaped3_nth {A : Type} (f : array3 A) (nt nr nc t : nat) :
  shape3 f = (nt, nr, nc) -> well_shaped3 f = true -> (t < nt)%nat ->
  well_shaped_rows nr nc (nth t (frames3 f) []) = true.
Proof.
  unfold well_shaped3. intros -> W L.
  apply andb_true_iff in W. destruct W as [E F].
  apply Nat.eqb_eq in E. rewrite forallb_forall in F.
  apply F, nth_In. lia.
Qed.

Lemma zeros2_well_shaped {A : Type} (z : A) (sh : nat * nat) :
  well_shaped2 (numpy_zeros2 z sh) = true.
Proof.
  unfold well_shaped2. simpl. apply well_shaped_rows_spec. split.
  - apply repeat_length.
  - apply Forall_forall. intros r I. apply repeat_spec in I. subst r.
    apply repeat_length.
Qed.

Lemma map2d_well_shaped {A B : Type} (f : A -> B) (a : array2 A) :
  well_shaped2 a = true -> well_shaped2 (map2d f a) = true.
Proof.
  unfold well_shaped2. simpl. intros W.
  apply well_shaped_rows_spec in W. destruct W as [E F].
  apply well_shaped_rows_spec. split.
  - now rewrite length_map.
  - apply Forall_map. eapply Forall_impl; [| exact F].
    intros r Hr. now rewrite length_map.
Qed.

(** ** Comparisons of a boolean array with 0 and 1 *)

Lemma map2d_id {A : Type} (f : A -> A) (a : array2 A) :
  (forall v, f v = v) -> map2d f a = a.
Proof.
  intros E. destruct a as [sh rows]. unfold map2d. simpl. f_equal.
  rewrite <- (map_id rows) at 2. apply map_ext. intros r.
  rewrite <- (map_id r) at 2. now apply map_ext.
Qed.

Lemma eq_scalar_1 (m : array2 bool) : eq_scalar m 1 = m.
Proof. apply map2d_id. now intros []. Qed.

Lemma ne_scalar_0 (m : array2 bool) : ne_scalar m 0 = m.
Proof. apply map2d_id. now intros []. Qed.

(** ** Row-major enumeration of the true cells *)

Lemma where_true_from_length (k : nat) (bs : list bool) :
  length (where_true_from k bs) = count_true_row bs.
Proof.
  revert k. unfold count_true_row.
  induction bs as [| b bs IH]; intros k; simpl; trivial.
  destruct b; simpl; now rewrite IH.
Qed.

Lemma argwhere_from_length (i : nat) (rows : list (list bool)) :
  length (argwhere_from i rows) = count_true rows.
Proof.
  revert i. unfold count_true.
  induction rows as [| r rows IH]; intros i; simpl; trivial.
  now rewrite length_app, length_map, where_true_from_length, IH.
Qed.

(** The kept cells of a row are the row read at the true positions. *)
Lemma select_row_positions {A : Type} (d : A) (bs : list bool) :
  forall (vs pre : list A),
    length bs = length vs ->
    select_row bs vs = map (fun j => nth j (pre ++ vs) d) (where_true_from (length pre) bs).
Proof.
  induction bs as [| b bs IH]; intros vs pre L; destruct vs as [| v vs];
    simpl in L; try discriminate; trivial.
  injection L as L.
  specialize (IH vs (pre ++ [v]) L).
  rewrite length_app, Nat.add_1_r, <- app_assoc in IH. simpl in IH.
  simpl. destruct b; simpl; rewrite IH; trivial.
  f_equal. now rewrite nth_middle.
Qed.

(** The kept cells of a frame are the frame read at the [argwhere] pairs, in
    the same order. *)
Lemma select_frame_argwhere {A : Type} (d : A) (nc : nat) (mask : list (list bool)) :
  forall (frame pre : list (list A)),
    length mask = length frame ->
    Forall (fun r => length r = nc) mask ->
    Forall (fun r => length r = nc) frame ->
    select_frame mask frame =
    map (fun rc => cell d (pre ++ frame) (Z.to_nat (fst rc)) (Z.to_nat (snd rc)))
        (argwhere_from (length pre) mask).
Proof.
  induction mask as [| bs mask IH]; intros frame pre L Fm Ff;
    destruct frame as [| vs frame]; simpl in L; try discriminate; trivial.
  injection L as L.
  inversion Fm as [| ? ? Hbs Fm']; subst.
  inversion Ff as [| ? ? Hvs Ff']; subst.
  specialize (IH frame (pre ++ [vs]) L Fm' Ff').
  rewrite length_app, Nat.add_1_r, <- app_assoc in IH. simpl in IH.
  simpl. rewrite map_app, map_map, <- IH. f_equal.
  rewrite (select_row_positions d bs vs []) by congruence.
  simpl. apply map_ext. intros j. unfold cell. simpl.
  now rewrite !Nat2Z.id, nth_middle.
Qed.

(** The two rows of the transposed [argwhere] result. *)
Lemma argwhere_transposed (m : array2 bool) :
  let l := argwhere_from 0 (rows2 m) in
  let c := transpose2 0 (numpy_argwhere m) in
  shape2 c = (2%nat, length l) /\ row2 c 0 = map fst l /\ row2 c 1 = map snd l.
Proof.
  simpl. unfold transpose2, numpy_argwhere, row2. simpl.
  repeat split; rewrite map_map; now apply map_ext.
Qed.

(** ** The rasterizer keeps the shape and paints cell by cell *)

Lemma paint_row_length (hit : Z -> bool) (v : Z) (row : list Z) :
  forall k, length (cv2.paint_row hit v k row) = length row.
Proof. induction row as [| old row IH]; intros k; simpl; auto. Qed.

Lemma paint_rows_length (hit : Z -> Z -> bool) (v : Z) (rows : list (list Z)) :
  forall k, length (cv2.paint_rows hit v k rows) = length rows.
Proof. induction rows as [| r rows IH]; intros k; simpl; auto. Qed.

Lemma paint_row_nth (hit : Z -> bool) (v d : Z) (row : list Z) :
  forall k j, (j < length row)%nat ->
    nth j (cv2.paint_row hit v k row) d =
    if hit (Z.of_nat (k + j)) then v else nth j row d.
Proof.
  induction row as [| old row IH]; intros k j L; simpl in L; [lia |].
  destruct j as [| j]; simpl.
  - now rewrite Nat.add_0_r.
  - rewrite IH by lia. now rewrite Nat.add_succ_r.
Qed.

Lemma paint_rows_nth (hit : Z -> Z -> bool) (v : Z) (rows : list (list Z)) :
  forall k i, (i < length rows)%nat ->
    nth i (cv2.paint_rows hit v k rows) [] =
    cv2.paint_row (fun px => hit px (Z.of_nat (k + i))) v 0 (nth i rows []).
Proof.
  induction rows as [| r rows IH]; intros k i L; simpl in L; [lia |].
  destruct i as [| i]; simpl.
  - now rewrite Nat.add_0_r.
  - rewrite IH by lia. now rewrite Nat.add_succ_r.
Qed.

Lemma paint_well_shaped (hit : Z -> Z -> bool) (v : Z) (img : array2 Z) :
  well_shaped2 img = true -> well_shaped2 (cv2.paint hit v img) = true.
Proof.
  unfold well_shaped2. simpl. intros W.
  apply well_shaped_rows_spec in W. destruct W as [E F].
  apply well_shaped_rows_spec. split.
  - now rewrite paint_rows_length.
  - apply Forall_forall. intros r I.
    destruct (In_nth _ _ [] I) as (i & L & <-).
    rewrite paint_rows_length in L.
    rewrite paint_rows_nth, paint_row_length by trivial.
    rewrite Forall_forall in F. now apply F, nth_In.
Qed.

Lemma nth_map_in {A B : Type} (f : A -> B) (l : list A) (j : nat) (d : A) (d' : B) :
  (j < length l)%nat -> nth j (map f l) d' = f (nth j l d).
Proof.
  intros L. rewrite (nth_indep _ d' (f d)) by now rewrite length_map.
  apply map_nth.
Qed.

(** A cell of the mask obtained by painting [hit] with a nonzero value on a
    zero raster and converting to booleans. *)
Lemma painted_zeros_cell (hit : Z -> Z -> bool) (v : Z) (sh : nat * nat) (i j : nat) :
  v <> 0 -> (i < fst sh)%nat -> (j < snd sh)%nat ->
  cell false (rows2 (astype_bool (cv2.paint hit v (numpy_zeros2 0 sh)))) i j =
  hit (Z.of_nat j) (Z.of_nat i).
Proof.
  intros Hv Li Lj. unfold cell, astype_bool, map2d. simpl.
  rewrite (nth_map_in _ _ i [])
    by now rewrite paint_rows_length, repeat_length.
  rewrite paint_rows_nth by now rewrite repeat_length.
  rewrite nth_repeat_lt by trivial.
  rewrite (nth_map_in _ _ j 0)
    by now rewrite paint_row_length, repeat_length.
  rewrite paint_row_nth by now rewrite repeat_length.
  simpl. rewrite nth_repeat_lt by trivial.
  destruct (hit (Z.of_nat j) (Z.of_nat i)); trivial.
  apply negb_true_iff, Z.eqb_neq, Hv.
Qed.

Lemma ellipse_inr (img : array2 Z) (center axes : Z * Z) (color : Z * Z * Z)
    (out : array2 Z) :
  cv2.ellipse img center axes 0 0 360 color cv2.default_thickness = inr out ->
  0 <= fst axes /\ 0 <= snd axes /\
  out = cv2.paint (cv2.on_outline center axes) (cv2.channel_value color) img.
Proof.
  unfold cv2.ellipse, cv2.default_thickness. simpl.
  destruct (fst axes <? 0) eqn:Ea; simpl; [discriminate |].
  destruct (snd axes <? 0) eqn:Eb; simpl; [discriminate |].
  intros E. injection E as <-.
  apply Z.ltb_ge in Ea, Eb. auto.
Qed.

Lemma ellipse_total (img : array2 Z) (center axes : Z * Z) (color : Z * Z * Z) :
  0 <= fst axes -> 0 <= snd axes ->
  cv2.ellipse img center axes 0 0 360 color cv2.default_thickness =
  inr (cv2.paint (cv2.on_outline center axes) (cv2.channel_value color) img).
Proof.
  intros Ha Hb. unfold cv2.ellipse, cv2.default_thickness. simpl.
  apply Z.ltb_ge in Ha, Hb. now rewrite Ha, Hb.
Qed.

(** ** Construction of the circular detector *)

Section CircularFacts.
Context {V : Type} `{Numeric V}.

Local Abbreviation detector := (CircularDetector.t V).

(** What a successful [construct_object] has done. *)
Lemma construct_object_inr (self self' : detector) :
  CircularDetector.construct_object self = inr self' ->
  exists ri drawn,
    get_coordinate (CircularDetector.grid self)
      (Value (CircularDetector.radius self)) (Value (CircularDetector.radius self)) = inr ri /\
    0 <= Position.x_index ri /\ 0 <= Position.y_index ri /\
    drawn = cv2.paint
              (cv2.on_outline
                 (Position.y_index (CircularDetector.position self),
                  Position.x_index (CircularDetector.position self))
                 (Position.x_index ri, Position.y_index ri))
              255 (numpy_zeros2 0 (shape (CircularDetector.grid self))) /\
    let idx := astype_bool drawn in
    let coords := transpose2 0 (numpy_argwhere idx) in
    self' = CircularDetector.set_object self idx coords
              (map (fun rc =>
                      arctan2 (fst rc - Position.x_index (CircularDetector.position self))
                              (snd rc - Position.y_index (CircularDetector.position self)))
                   (combine (row2 coords 0) (row2 coords 1))).
Proof.
  unfold CircularDetector.construct_object. intros E.
  invert_bind E. invert_bind E.
  apply ellipse_inr in E1. destruct E1 as (Ha & Hb & ->).
  exists a, (cv2.paint
               (cv2.on_outline
                  (Position.y_index (CircularDetector.position self),
                   Position.x_index (CircularDetector.position self))
                  (Position.x_index a, Position.y_index a))
               255 (numpy_zeros2 0 (shape (CircularDetector.grid self)))).
  simpl in Ha, Hb. repeat split; trivial.
  simpl. rewrite eq_scalar_1 in E. injection E as <-. reflexivity.
Qed.

(** Rebuilding the geometry of a built detector changes nothing: the Grid
    answers as before and the rasterizer is a function of its arguments. *)
Lemma construct_object_built (self self' : detector) :
  CircularDetector.construct_object self = inr self' -> CircularDetector.built self'.
Proof.
  unfold CircularDetector.built. intros E.
  pose proof (construct_object_inr _ _ E) as (ri & drawn & G & Ha & Hb & -> & ->).
  unfold CircularDetector.construct_object in *. simpl.
  rewrite G in *. simpl in *.
  rewrite ellipse_total in * by trivial. simpl in *.
  injection E as E. rewrite eq_scalar_1 in *. reflexivity.
Qed.

Lemma post_init_built (g : Grid V) (p : list (coordinate V)) (r : V) (self : detector) :
  CircularDetector.__post_init__ g p r = inr self -> CircularDetector.built self.
Proof.
  unfold CircularDetector.__post_init__. intros E.
  invert_bind E. invert_bind E. invert_bind E.
  eapply construct_object_built, E.
Qed.

Lemma construct_object_set_data (self : detector) (d : array2 V) :
  CircularDetector.construct_object (CircularDetector.set_data self d) =
  match CircularDetector.construct_object self with
  | inl e => inl e
  | inr s => inr (CircularDetector.set_data s d)
  end.
Proof.
  destruct self as [g p r dat idx coords angles].
  unfold CircularDetector.construct_object. simpl.
  destruct (get_coordinate g (Value r) (Value r)) as [e | ri]; simpl; trivial.
  destruct (cv2.ellipse _ _ _ _ _ _ _ _) as [e | drawn]; simpl; trivial.
Qed.

Lemma set_data_built (self : detector) (d : array2 V) :
  CircularDetector.built self -> CircularDetector.built (CircularDetector.set_data self d).
Proof.
  unfold CircularDetector.built. intros B.
  now rewrite construct_object_set_data, B.
Qed.

Lemma invoke_built (m : CircularDetector.method V) (self self' : detector)
    (v : CircularDetector.returned V) :
  CircularDetector.built self ->
  CircularDetector.invoke m self = inr (v, self') ->
  CircularDetector.built self'.
Proof.
  intros B E. destruct m; simpl in E.
  - invert_bind E. injection E as _ <-. eapply construct_object_built, E0.
  - invert_bind E. injection E as _ <-.
    unfold CircularDetector.update_data in E0.
    invert_bind E0. invert_bind E0. injection E0 as <-.
    now apply set_data_built.
  - invert_bind E. now injection E as _ <-.
  - now injection E as _ <-.
  - now injection E as _ <-.
Qed.

Lemma evolves_built (allow : CircularDetector.method V -> bool) (s s' : detector) :
  CircularDetector.evolves allow s s' ->
  CircularDetector.built s -> CircularDetector.built s'.
Proof.
  induction 1 as [| s s' s'' m v Ev IH A I]; intros B; trivial.
  eapply invoke_built; [apply IH, B | exact I].
Qed.

Lemma reachable_built (self : detector) :
  CircularDetector.reachable self -> CircularDetector.built self.
Proof.
  intros (g & p & r & s0 & I & Ev).
  eapply evolves_built; [exact Ev |]. eapply post_init_built, I.
Qed.
End CircularFacts.

(** ** Membership in the [argwhere] enumeration *)

Lemma where_true_from_In (bs : list bool) :
  forall k j, In j (where_true_from k bs) <->
    exists j', j = (k + j')%nat /\ (j' < length bs)%nat /\ nth j' bs false = true.
Proof.
  induction bs as [| b bs IH]; intros k j; simpl.
  - split; [tauto | intros (j' & _ & L & _); lia].
  - assert (T : In j (where_true_from (S k) bs) <->
                exists j', j = (k + S j')%nat /\ (j' < length bs)%nat
                           /\ nth j' bs false = true).
    { rewrite IH. split; intros (j' & E & R); exists j'; split; trivial; lia. }
    destruct b; simpl; rewrite ?T; split.
    + intros [<- | (j' & E & L & N)].
      * exists 0%nat. repeat split; trivial; lia.
      * exists (S j'). repeat split; trivial; lia.
    + intros ([| j'] & E & L & N).
      * left. lia.
      * right. exists j'. repeat split; trivial; lia.
    + intros (j' & E & L & N). exists (S j'). repeat split; trivial; lia.
    + intros ([| j'] & E & L & N); [discriminate |].
      exists j'. repeat split; trivial; lia.
Qed.

Lemma argwhere_from_In (rows : list (list bool)) :
  forall i r c, In (r, c) (argwhere_from i rows) <->
    exists k j, r = Z.of_nat (i + k) /\ c = Z.of_nat j /\ (k < length rows)%nat /\
                (j < length (nth k rows []))%nat /\ cell false rows k j = true.
Proof.
  unfold cell.
  induction rows as [| bs rows IH]; intros i r c; simpl.
  - split; [tauto | intros (k & j & _ & _ & L & _); lia].
  - rewrite in_app_iff, in_map_iff, IH. split.
    + intros [(j & E & I) | (k & j & -> & -> & L & Lj & N)].
      * injection E as <- <-. apply where_true_from_In in I.
        destruct I as (j' & -> & L & N).
        exists 0%nat, j'. rewrite Nat.add_0_r. repeat split; trivial; lia.
      * exists (S k), j. repeat split; trivial; lia.
    + intros ([| k] & j & -> & -> & L & Lj & N).
      * left. exists j. rewrite Nat.add_0_r. split; trivial.
        apply where_true_from_In. exists j. auto.
      * right. exists k, j. repeat split; trivial; lia.
Qed.



(** ** What a built circular detector holds *)

Section CircularGeometry.
Context {V : Type} `{Numeric V}.

Local Abbreviation detector := (CircularDetector.t V).

Lemma built_geometry (self : detector) :
  CircularDetector.built self ->
  exists ri,
    get_coordinate (CircularDetector.grid self)
      (Value (CircularDetector.radius self)) (Value (CircularDetector.radius self)) = inr ri /\
    0 <= Position.x_index ri /\ 0 <= Position.y_index ri /\
    let idx := outline_mask (CircularDetector.grid self) (CircularDetector.position self) ri in
    let members := argwhere_from 0 (rows2 idx) in
    CircularDetector.object_idx self = Some idx /\
    CircularDetector.object_coordinate_index self =
      Some (transpose2 0 (numpy_argwhere idx)) /\
    CircularDetector.angle_list self =
      Some (map (fun rc =>
                   arctan2 (fst rc - Position.x_index (CircularDetector.position self))
                           (snd rc - Position.y_index (CircularDetector.position self)))
                members).
Proof.
  intros B. unfold CircularDetector.built in B.
  pose proof (construct_object_inr _ _ B) as (ri & drawn & G & Ha & Hb & -> & E).
  exists ri. repeat split; trivial; simpl in E |- *; fold (outline_mask (CircularDetector.grid self) (CircularDetector.position self) ri) in E.
  - now rewrite E.
  - now rewrite E.
  - rewrite E. simpl. f_equal.
    destruct (argwhere_transposed
                (outline_mask (CircularDetector.grid self) (CircularDetector.position self) ri))
      as (_ & -> & ->).
    f_equal. induction (argwhere_from 0 _) as [| [r c] l IH]; simpl; congruence.
Qed.

Lemma outline_mask_shape (g : Grid V) (p ri : Position.t V) :
  shape2 (outline_mask g p ri) = shape g /\ well_shaped2 (outline_mask g p ri) = true.
Proof.
  split; [reflexivity |].
  apply map2d_well_shaped, paint_well_shaped, zeros2_well_shaped.
Qed.

Lemma outline_mask_at (g : Grid V) (p ri : Position.t V) (r c : nat) :
  (r < fst (shape g))%nat -> (c < snd (shape g))%nat ->
  CircularDetector.mask_at (outline_mask g p ri) r c =
  cv2.on_outline (Position.y_index p, Position.x_index p)
                 (Position.x_index ri, Position.y_index ri)
                 (Z.of_nat c) (Z.of_nat r).
Proof.
  intros Lr Lc. unfold CircularDetector.mask_at, outline_mask.
  now apply painted_zeros_cell.
Qed.
End CircularGeometry.

(** ** Sampling by the circular detector *)

(** Every enumerated member is a true cell inside the raster. *)
Lemma member_in_range (rows : list (list bool)) (nr nc m : nat) :
  well_shaped_rows nr nc rows = true ->
  (m < count_true rows)%nat ->
  let rc := nth m (argwhere_from 0 rows) (0, 0) in
  0 <= fst rc < Z.of_nat nr /\ 0 <= snd rc < Z.of_nat nc /\
  cell false rows (Z.to_nat (fst rc)) (Z.to_nat (snd rc)) = true.
Proof.
  intros W L. simpl.
  assert (I : In (nth m (argwhere_from 0 rows) (0, 0)) (argwhere_from 0 rows))
    by (apply nth_In; now rewrite argwhere_from_length).
  destruct (nth m _ _) as [r c]. apply argwhere_from_In in I.
  destruct I as (k & j & -> & -> & Lk & Lj & N). simpl.
  pose proof (proj1 (well_shaped_rows_spec nr nc rows) W) as [E F].
  rewrite (well_shaped_rows_nth nr nc rows k W) in Lj by lia.
  rewrite !Nat2Z.id. repeat split; trivial; lia.
Qed.

Section CircularSampling.
Context {V : Type} `{Numeric V}.

Local Abbreviation detector := (CircularDetector.t V).

Lemma member_coordinate_nth (idx : array2 bool) (m : nat) :
  (m < length (argwhere_from 0 (rows2 idx)))%nat ->
  CircularDetector.member_coordinate (transpose2 0 (numpy_argwhere idx)) m =
  nth m (argwhere_from 0 (rows2 idx)) (0, 0).
Proof.
  intros L. unfold CircularDetector.member_coordinate.
  destruct (argwhere_transposed idx) as (_ & -> & ->).
  rewrite (nth_map_in fst _ m (0, 0)), (nth_map_in snd _ m (0, 0)) by trivial.
  now destruct (nth m _ _).
Qed.

(** C1. After [update_data] on a field whose spatial shape is the grid's,
    [data] has shape (T, M) with M the number of true mask cells, and
    [data[t][m]] is the field at time [t] at [member_coordinates[m]]: the
    member axis follows the row-major [argwhere] order in which
    [member_coordinates] and [member_angles] were built. *)
Theorem circular_update_data_samples_members
    (self : detector) (field : array3 V) (nt nr nc : nat) :
  CircularDetector.reachable self ->
  shape3 field = (nt, nr, nc) ->
  well_shaped3 field = true ->
  shape (CircularDetector.grid self) = (nr, nc) ->
  exists idx coords angles d,
    CircularDetector.object_idx self = Some idx /\
    CircularDetector.object_coordinate_index self = Some coords /\
    CircularDetector.angle_list self = Some angles /\
    CircularDetector.update_data self field = inr (CircularDetector.set_data self d) /\
    shape2 d = (nt, count_true (rows2 idx)) /\
    length (rows2 d) = nt /\
    shape2 coords = (2%nat, count_true (rows2 idx)) /\
    length angles = count_true (rows2 idx) /\
    forall t m, (t < nt)%nat -> (m < count_true (rows2 idx))%nat ->
      let rc := CircularDetector.member_coordinate coords m in
      length (nth t (rows2 d) []) = count_true (rows2 idx) /\
      0 <= fst rc < Z.of_nat nr /\ 0 <= snd rc < Z.of_nat nc /\
      CircularDetector.mask_at idx (Z.to_nat (fst rc)) (Z.to_nat (snd rc)) = true /\
      nth m (nth t (rows2 d) []) zero =
      item3 zero field t (Z.to_nat (fst rc)) (Z.to_nat (snd rc)).
Proof.
  intros R Sf Wf Sg.
  destruct (built_geometry self (reachable_built self R))
    as (ri & G & Ha & Hb & Ei & Ec & Ea).
  destruct (outline_mask_shape (CircularDetector.grid self) (CircularDetector.position self) ri)
    as [Sm Wm].
  cbv zeta in Ei, Ec, Ea.
  remember (outline_mask (CircularDetector.grid self) (CircularDetector.position self) ri)
    as idx eqn:Eidx.
  clear Eidx. rewrite Sg in Sm.
  assert (Wm' : length (rows2 idx) = nr /\ Forall (fun r => length r = nc) (rows2 idx)).
  { apply well_shaped_rows_spec. unfold well_shaped2 in Wm. now rewrite Sm in Wm. }
  destruct Wm' as [Lm Fm].
  assert (Lf : length (frames3 field) = nt).
  { unfold well_shaped3 in Wf. rewrite Sf in Wf.
    apply andb_true_iff in Wf. now apply Nat.eqb_eq. }
  exists idx, (transpose2 0 (numpy_argwhere idx)),
    (map (fun rc =>
            arctan2 (fst rc - Position.x_index (CircularDetector.position self))
                    (snd rc - Position.y_index (CircularDetector.position self)))
         (argwhere_from 0 (rows2 idx))),
    (Array2 (nt, count_true (rows2 idx))
            (map (select_frame (rows2 idx)) (frames3 field))).
  split; [exact Ei | split; [exact Ec | split; [exact Ea |]]].
  split.
  { unfold CircularDetector.update_data. rewrite Ei. simpl.
    rewrite ne_scalar_0. unfold getitem_mask. rewrite Sf, Sm. simpl.
    now rewrite !Nat.eqb_refl. }
  split; [reflexivity |].
  split; [simpl; now rewrite length_map |].
  split.
  { destruct (argwhere_transposed idx) as (-> & _). now rewrite argwhere_from_length. }
  split; [now rewrite length_map, argwhere_from_length |].
  intros t m Lt Lm'.
  pose proof (well_shaped3_nth field nt nr nc t Sf Wf Lt) as Wt.
  apply well_shaped_rows_spec in Wt. destruct Wt as [Lft Ft].
  assert (Et : nth t (map (select_frame (rows2 idx)) (frames3 field)) [] =
               map (fun rc => cell zero (nth t (frames3 field) [])
                                (Z.to_nat (fst rc)) (Z.to_nat (snd rc)))
                   (argwhere_from 0 (rows2 idx))).
  { rewrite (nth_map_in _ _ t []) by lia.
    now rewrite (select_frame_argwhere zero nc (rows2 idx) _ []) by (trivial; congruence). }
  rewrite member_coordinate_nth by now rewrite argwhere_from_length.
  destruct (member_in_range (rows2 idx) nr nc m) as (R1 & R2 & R3);
    [now apply well_shaped_rows_spec | trivial |].
  cbv zeta. cbn [rows2 fst snd]. rewrite Et.
  split; [now rewrite length_map, argwhere_from_length |].
  split; [exact R1 | split; [exact R2 | split; [exact R3 |]]].
  now rewrite (nth_map_in _ _ m (0, 0)) by now rewrite argwhere_from_length.
Qed.
End CircularSampling.

(** ** Angles of the member cells *)

Section CircularAngles.
Context {V : Type} `{Numeric V}.

(** C4. [member_angles] and [member_coordinates] have the same length and
    are aligned: the angle stored at [m] is [arctan2] of the row offset
    and the column offset of [member_coordinates[m]] from the resolved
    centre, in that argument order. *)
Theorem circular_angles_follow_coordinates (self : CircularDetector.t V) :
  CircularDetector.reachable self ->
  exists coords angles,
    CircularDetector.object_coordinate_index self = Some coords /\
    CircularDetector.angle_list self = Some angles /\
    shape2 coords = (2%nat, length angles) /\
    length (row2 coords 0) = length angles /\
    length (row2 coords 1) = length angles /\
    forall m, (m < length angles)%nat ->
      let rc := CircularDetector.member_coordinate coords m in
      nth m angles zero =
      arctan2 (fst rc - Position.x_index (CircularDetector.position self))
              (snd rc - Position.y_index (CircularDetector.position self)).
Proof.
  intros R.
  destruct (built_geometry self (reachable_built self R))
    as (ri & G & Ha & Hb & Ei & Ec & Ea).
  cbv zeta in Ei, Ec, Ea.
  remember (outline_mask (CircularDetector.grid self) (CircularDetector.position self) ri)
    as idx eqn:Eidx.
  clear Eidx.
  eexists. eexists. split; [exact Ec |]. split; [exact Ea |].
  destruct (argwhere_transposed idx) as (Es & E0 & E1). cbv zeta in Es, E0, E1.
  rewrite Es, E0, E1, !length_map.
  repeat split; trivial.
  intros m L. cbv zeta.
  rewrite member_coordinate_nth by trivial.
  now rewrite (nth_map_in _ _ m (0, 0)) by trivial.
Qed.
End CircularAngles.

(** ** The point detector *)

Section PointFacts.
Context {V : Type} `{Numeric V}.

Lemma normalize_index_in_range (i : Z) (n : nat) :
  0 <= i < Z.of_nat n -> normalize_index i n = inr (Z.to_nat i).
Proof.
  intros [L U]. unfold normalize_index.
  apply Z.leb_le in L. apply Z.ltb_lt in U. now rewrite L, U.
Qed.

(** C3. [update_data] on a field with T time entries replaces [data] by
    the T values of the field at the detector's resolved (row, column)
    index: whatever [data] held before is discarded. *)
Theorem point_update_data_slices_history
    (self : PointDetector.t V) (field : array3 V) (nt nr nc : nat) :
  shape3 field = (nt, nr, nc) ->
  well_shaped3 field = true ->
  shape (PointDetector.grid self) = (nr, nc) ->
  0 <= Position.x_index (PointDetector.position self) < Z.of_nat nr ->
  0 <= Position.y_index (PointDetector.position self) < Z.of_nat nc ->
  exists self',
    PointDetector.update_data self field = inr self' /\
    PointDetector.grid self' = PointDetector.grid self /\
    PointDetector.position self' = PointDetector.position self /\
    length (PointDetector.data self') = nt /\
    forall t, (t < nt)%nat ->
      nth t (PointDetector.data self') zero =
      item3 zero field t
        (Z.to_nat (Position.x_index (PointDetector.position self)))
        (Z.to_nat (Position.y_index (PointDetector.position self))).
Proof.
  intros Sf Wf Sg Hx Hy.
  assert (Lf : length (frames3 field) = nt).
  { unfold well_shaped3 in Wf. rewrite Sf in Wf.
    apply andb_true_iff in Wf. now apply Nat.eqb_eq. }
  unfold PointDetector.update_data, getitem_point. rewrite Sf.
  rewrite !normalize_index_in_range by trivial. simpl.
  eexists. split; [reflexivity |]. simpl.
  repeat split; trivial.
  - now rewrite length_map.
  - intros t Lt. unfold item3.
    now rewrite (nth_map_in _ _ t []) by lia.
Qed.

(** C9. Right after construction the data of a point detector is a
    sequence of zeros, one per time step of the grid. *)
Theorem point_data_starts_as_zeros
    (g : Grid V) (p : coordinate V * coordinate V) (self : PointDetector.t V) :
  PointDetector.__post_init__ g p = inr self ->
  length (PointDetector.data self) = n_steps g /\
  (forall t, (t < n_steps g)%nat -> nth_error (PointDetector.data self) t = Some zero) /\
  PointDetector.data self = repeat zero (n_steps g).
Proof.
  unfold PointDetector.__post_init__. intros E. invert_bind E.
  injection E as <-. simpl. unfold numpy_zeros1.
  split; [apply repeat_length |]. split; trivial.
  intros t Lt. rewrite nth_error_repeat; trivial.
Qed.
End PointFacts.

(** ** What the methods leave untouched *)

Section Frames.
Context {V : Type} `{Numeric V}.

Lemma circular_update_data_frame (self self' : CircularDetector.t V) (field : array3 V) :
  CircularDetector.update_data self field = inr self' ->
  exists d, self' = CircularDetector.set_data self d.
Proof.
  unfold CircularDetector.update_data. intros E.
  invert_bind E. invert_bind E. injection E as <-. eauto.
Qed.

Lemma circular_construct_object_data (self self' : CircularDetector.t V) :
  CircularDetector.construct_object self = inr self' ->
  CircularDetector.data self' = CircularDetector.data self.
Proof.
  intros E. apply construct_object_inr in E.
  destruct E as (ri & drawn & _ & _ & _ & _ & ->). reflexivity.
Qed.

Lemma circular_invoke_data (m : CircularDetector.method V)
    (self self' : CircularDetector.t V) (v : CircularDetector.returned V) :
  CircularDetector.invoke m self = inr (v, self') ->
  CircularDetector.is_update_data m = false ->
  CircularDetector.data self' = CircularDetector.data self.
Proof.
  intros E N. destruct m; simpl in E, N; try discriminate.
  - invert_bind E. injection E as _ <-. now apply circular_construct_object_data.
  - invert_bind E. now injection E as _ <-.
  - now injection E as _ <-.
  - now injection E as _ <-.
Qed.

(** C7. A successful [update_data] leaves the geometry of either detector
    as it was (grid, resolved position, radius, mask, member coordinates
    and member angles); and a call of any other method leaves [data] as it
    was. *)
Theorem update_data_is_the_only_writer_of_data :
  (forall (self self' : CircularDetector.t V) (field : array3 V),
      CircularDetector.update_data self field = inr self' ->
      CircularDetector.grid self' = CircularDetector.grid self /\
      CircularDetector.position self' = CircularDetector.position self /\
      CircularDetector.radius self' = CircularDetector.radius self /\
      CircularDetector.object_idx self' = CircularDetector.object_idx self /\
      CircularDetector.object_coordinate_index self' =
        CircularDetector.object_coordinate_index self /\
      CircularDetector.angle_list self' = CircularDetector.angle_list self) /\
  (forall (self self' : PointDetector.t V) (field : array3 V),
      PointDetector.update_data self field = inr self' ->
      PointDetector.grid self' = PointDetector.grid self /\
      PointDetector.position self' = PointDetector.position self) /\
  (forall (m : CircularDetector.method V) (self self' : CircularDetector.t V)
          (v : CircularDetector.returned V),
      CircularDetector.invoke m self = inr (v, self') ->
      CircularDetector.data self' <> CircularDetector.data self ->
      exists field, m = CircularDetector.UpdateData field) /\
  (forall (m : PointDetector.method V) (self self' : PointDetector.t V)
          (v : PointDetector.returned V),
      PointDetector.invoke m self = inr (v, self') ->
      PointDetector.data self' <> PointDetector.data self ->
      exists field, m = PointDetector.UpdateData field).
Proof.
  split; [| split; [| split]].
  - intros self self' field U.
    apply circular_update_data_frame in U. destruct U as (d & ->).
    repeat split.
  - intros self self' field U.
    unfold PointDetector.update_data in U. invert_bind U.
    injection U as <-. split; reflexivity.
  - intros m self self' v E D. destruct m as [| field | | |]; eauto;
      exfalso; apply D; eapply circular_invoke_data; eauto.
  - intros m self self' v E D. destruct m as [field | |]; eauto;
      exfalso; apply D; simpl in E; now injection E as _ <-.
Qed.

(** C10. A circular detector comes out of its constructor without [data]:
    until [update_data] is called, reading it, as [plot_data] does, raises
    AttributeError. *)
Theorem circular_data_unassigned_before_update
    (g : Grid V) (p : list (coordinate V)) (r : V) (s0 self : CircularDetector.t V) :
  CircularDetector.__post_init__ g p r = inr s0 ->
  CircularDetector.evolves (fun m => negb (CircularDetector.is_update_data m)) s0 self ->
  CircularDetector.data self = None /\
  forall slc,
    CircularDetector.aggregate self slc = inl (AttributeError "data") /\
    CircularDetector.plot_data self slc = inl (AttributeError "data").
Proof.
  intros I Ev.
  assert (D : CircularDetector.data self = None).
  { induction Ev as [s | s s' s'' m v Ev IH A E].
    - unfold CircularDetector.__post_init__ in I.
      invert_bind I. invert_bind I. invert_bind I.
      now apply circular_construct_object_data in I.
    - rewrite <- (IH I). eapply circular_invoke_data; [exact E |].
      now apply negb_true_iff. }
  split; trivial. intros slc.
  unfold CircularDetector.plot_data, CircularDetector.aggregate.
  rewrite D. split; reflexivity.
Qed.
End Frames.

(** ** Construction and the Grid's verdict *)

Section Construction.
Context {V : Type} `{Numeric V}.

End Construction.

(** ** The aggregate behind the polar plot *)

Section Aggregate.
Context {V : Type} `{Numeric V}.

Lemma normalize_index_last (n : nat) : normalize_index (-1) (S n) = inr n.
Proof.
  unfold normalize_index.
  destruct ((0 <=? -1) && (-1 <? Z.of_nat (S n))) eqn:E1.
  - apply andb_true_iff in E1. destruct E1 as [E1 _]. discriminate.
  - destruct ((- Z.of_nat (S n) <=? -1) && (-1 <? 0)) eqn:E2.
    + unfold ret. f_equal. lia.
    + apply andb_false_iff in E2. destruct E2 as [E2 | E2]; [| discriminate].
      apply Z.leb_gt in E2. lia.
Qed.

(** With a slice the time axis survives the selection and is the one
    summed away: one sum of magnitudes per member cell. *)
Lemma aggregate_over_slice (self : CircularDetector.t V) (d : array2 V)
    (nt nm : nat) (start stop step : option Z) (a b c : Z) :
  CircularDetector.data self = Some d ->
  shape2 d = (nt, nm) ->
  slice_indices start stop step (Z.of_nat nt) = inr (a, b, c) ->
  CircularDetector.aggregate self (Slice start stop step) =
  inr (Arr1 (map (fun m =>
                    sum_list (map (fun t => nth m (map absolute (row2 d t)) zero)
                                  (range_positions a b c)))
                 (seq 0 nm))).
Proof.
  intros D S I. unfold CircularDetector.aggregate, getitem_time.
  rewrite D. simpl. rewrite S, I. simpl. unfold ret. do 2 f_equal.
  apply map_ext. intros m. now rewrite !map_map.
Qed.

(** C5. With the default selection [slc = -1] the integer index removes
    the time axis before [sum(axis=0)] runs, so the sum runs over the
    member cells: the aggregate is one scalar, the sum of the magnitudes
    of all member cells at the last time, and not one value per cell. *)
Theorem circular_default_aggregate_is_scalar
    (self : CircularDetector.t V) (d : array2 V) (nt nm : nat) :
  CircularDetector.data self = Some d ->
  shape2 d = (S nt, nm) ->
  let total := sum_list (map absolute (row2 d nt)) in
  CircularDetector.aggregate self CircularDetector.default_slc = inr (Arr0 total) /\
  forall angles,
    CircularDetector.angle_list self = Some angles ->
    CircularDetector.plot_data self CircularDetector.default_slc =
    inr (Build_SceneList (Some (5, 5))
           [Build_Axis [("projection"%string, "polar"%string)]
              [add_scatter (Arr1 angles) (Arr0 total) []]]).
Proof.
  intros D S total.
  assert (A : CircularDetector.aggregate self CircularDetector.default_slc
              = inr (Arr0 total)).
  { unfold CircularDetector.aggregate, CircularDetector.default_slc, getitem_time.
    rewrite D. simpl. rewrite S, normalize_index_last. reflexivity. }
  split; [exact A |].
  intros angles Ea. unfold CircularDetector.plot_data. rewrite A, Ea. reflexivity.
Qed.
End Aggregate.

(** ** The raster region of the ellipse *)




Section Region.
Context {V : Type} `{Numeric V}.


End Region.

(** ** The mask *)

Section Mask.
Context {V : Type} `{Numeric V}.

End Mask.


(** ** Counting the cells of an outline *)



Section OutlineCount.
Variables (cx cy a b : Z).
Hypothesis (a_nonneg : 0 <= a) (b_nonneg : 0 <= b).

Local Abbreviation inside := (cv2.in_ellipse (cx, cy) (a, b)).



End OutlineCount.

(** ** The member cells of a built detector *)

Section Members.
Context {V : Type} `{Numeric V}.

(** The enumerated members are the grid cells on the outline. *)
Lemma outline_members (g : Grid V) (p ri : Position.t V) (r c : Z) :
  In (r, c) (argwhere_from 0 (rows2 (outline_mask g p ri))) <->
  0 <= r < Z.of_nat (fst (shape g)) /\ 0 <= c < Z.of_nat (snd (shape g)) /\
  cv2.on_outline (Position.y_index p, Position.x_index p)
                 (Position.x_index ri, Position.y_index ri) c r = true.
Proof.
  destruct (outline_mask_shape g p ri) as [Sm Wm].
  unfold well_shaped2 in Wm. rewrite Sm in Wm.
  pose proof (proj1 (well_shaped_rows_spec _ _ _) Wm) as [Lr _].
  rewrite argwhere_from_In. split.
  - intros (k & j & -> & -> & Lk & Lj & N).
    rewrite (well_shaped_rows_nth _ _ _ k Wm) in Lj by lia.
    change (CircularDetector.mask_at (outline_mask g p ri) k j = true) in N.
    rewrite outline_mask_at in N by lia.
    repeat split; trivial; lia.
  - intros ((R0 & R1) & (C0 & C1) & O).
    exists (Z.to_nat r), (Z.to_nat c).
    assert (Lk : (Z.to_nat r < fst (shape g))%nat) by lia.
    assert (Lj : (Z.to_nat c < snd (shape g))%nat) by lia.
    rewrite (well_shaped_rows_nth _ _ _ _ Wm Lk).
    change (cell false (rows2 (outline_mask g p ri)) (Z.to_nat r) (Z.to_nat c))
      with (CircularDetector.mask_at (outline_mask g p ri) (Z.to_nat r) (Z.to_nat c)).
    rewrite outline_mask_at, !Z2Nat.id by lia.
    repeat split; trivial; lia.
Qed.


End Members.


(** * The theorems at concrete detectors *)

Lemma small_ring_reachable (self : CircularDetector.t symbolic) :
  small_ring = inr self -> CircularDetector.reachable self.
Proof.
  intros E.
  exists (unit_grid 3 3 2), [Value (Exact 1); Value (Exact 1)], (Exact 1), self.
  split; [exact E | constructor].
Defined.


(** C1 on the 3 x 3 ring and the two-step ramp. *)
Lemma circular_update_data_samples_members_witness :
  exists self idx coords angles d,
    small_ring = inr self /\
    CircularDetector.object_idx self = Some idx /\
    CircularDetector.object_coordinate_index self = Some coords /\
    CircularDetector.angle_list self = Some angles /\
    CircularDetector.update_data self ramp_field = inr (CircularDetector.set_data self d) /\
    shape2 d = (2%nat, count_true (rows2 idx)) /\
    length angles = count_true (rows2 idx) /\
    forall t m, (t < 2)%nat -> (m < count_true (rows2 idx))%nat ->
      let rc := CircularDetector.member_coordinate coords m in
      nth m (nth t (rows2 d) []) zero =
      item3 zero ramp_field t (Z.to_nat (fst rc)) (Z.to_nat (snd rc)).
Proof.
  destruct small_ring as [e | self] eqn:E; [vm_compute in E; discriminate |].
  pose proof (small_ring_reachable self E) as R.
  assert (Sg : shape (CircularDetector.grid self) = (3%nat, 3%nat)).
  { vm_compute in E. injection E as <-. reflexivity. }
  destruct (circular_update_data_samples_members self ramp_field 2 3 3 R
              eq_refl eq_refl Sg)
    as (idx & coords & angles & d & Ei & Ec & Ea & U & Sd & _ & _ & La & P).
  exists self, idx, coords, angles, d.
  repeat (split; trivial).
  intros t m Lt Lm. now apply P.
Defined.


(** C3 on a point detector at (1, 2) and the two-step ramp. *)
Lemma point_update_data_slices_history_witness :
  exists self self',
    small_point = inr self /\
    PointDetector.update_data self ramp_field = inr self' /\
    PointDetector.position self' = PointDetector.position self /\
    length (PointDetector.data self') = 2%nat /\
    forall t, (t < 2)%nat ->
      nth t (PointDetector.data self') zero =
      item3 zero ramp_field t
        (Z.to_nat (Position.x_index (PointDetector.position self)))
        (Z.to_nat (Position.y_index (PointDetector.position self))).
Proof.
  destruct small_point as [e | self] eqn:E; [vm_compute in E; discriminate |].
  assert (F : shape (PointDetector.grid self) = (3%nat, 3%nat)
              /\ 0 <= Position.x_index (PointDetector.position self) < Z.of_nat 3
              /\ 0 <= Position.y_index (PointDetector.position self) < Z.of_nat 3).
  { vm_compute in E. injection E as <-. simpl.
    split; [reflexivity | lia]. }
  destruct F as (Sg & Hx & Hy).
  destruct (point_update_data_slices_history self ramp_field 2 3 3
              eq_refl eq_refl Sg Hx Hy)
    as (self' & U & _ & Ep & Ld & P).
  exists self, self'. repeat (split; trivial).
Defined.

(** C4 on the 3 x 3 ring. *)
Lemma circular_angles_follow_coordinates_witness :
  exists self coords angles,
    small_ring = inr self /\
    CircularDetector.object_coordinate_index self = Some coords /\
    CircularDetector.angle_list self = Some angles /\
    shape2 coords = (2%nat, length angles) /\
    forall m, (m < length angles)%nat ->
      let rc := CircularDetector.member_coordinate coords m in
      nth m angles zero =
      arctan2 (fst rc - Position.x_index (CircularDetector.position self))
              (snd rc - Position.y_index (CircularDetector.position self)).
Proof.
  destruct small_ring as [e | self] eqn:E; [vm_compute in E; discriminate |].
  destruct (circular_angles_follow_coordinates self (small_ring_reachable self E))
    as (coords & angles & Ec & Ea & Sc & _ & _ & P).
  exists self, coords, angles. repeat (split; trivial).
Defined.

(** C5 at the failing input: after the update with the ramp, the default
    aggregate is the single number 2 + 4 + 6 + 8, where one magnitude per
    member cell, [2; 4; 6; 8], was to be expected; a slice over the last
    time step does give that vector. *)
Lemma circular_default_aggregate_is_scalar_witness :
  exists self d,
    small_ring_updated = inr self /\
    CircularDetector.data self = Some d /\
    shape2 d = (2%nat, 4%nat) /\
    CircularDetector.aggregate self CircularDetector.default_slc = inr (Arr0 (Exact 20)) /\
    CircularDetector.aggregate self (Slice (Some (-1)) None None) =
      inr (Arr1 [Exact 2; Exact 4; Exact 6; Exact 8]).
Proof.
  destruct small_ring_updated as [e | self] eqn:E; [vm_compute in E; discriminate |].
  vm_compute in E. injection E as <-.
  match goal with
  | |- exists s _, inr ?self = inr s /\ _ =>
      pose proof (circular_default_aggregate_is_scalar self _ 1 4 eq_refl eq_refl)
        as [A _]
  end.
  eexists. eexists.
  split; [reflexivity |]. split; [reflexivity |]. split; [reflexivity |].
  split; [exact A | reflexivity].
Defined.


(** C7 on the 3 x 3 ring: the update with the ramp changes [data] only. *)
Lemma update_data_is_the_only_writer_of_data_witness :
  exists self self',
    small_ring = inr self /\
    CircularDetector.update_data self ramp_field = inr self' /\
    CircularDetector.position self' = CircularDetector.position self /\
    CircularDetector.radius self' = CircularDetector.radius self /\
    CircularDetector.object_idx self' = CircularDetector.object_idx self /\
    CircularDetector.object_coordinate_index self' =
      CircularDetector.object_coordinate_index self /\
    CircularDetector.angle_list self' = CircularDetector.angle_list self.
Proof.
  destruct small_ring as [e | self] eqn:E; [vm_compute in E; discriminate |].
  destruct (CircularDetector.update_data self ramp_field) as [e | self'] eqn:U.
  { vm_compute in E. injection E as <-. vm_compute in U. discriminate. }
  destruct (proj1 update_data_is_the_only_writer_of_data self self' ramp_field U)
    as (_ & Ep & Er & Ei & Ec & Ea).
  exists self, self'. repeat (split; trivial).
Defined.


(** C9 on the point detector of a grid with two time steps. *)
Lemma point_data_starts_as_zeros_witness :
  exists self,
    small_point = inr self /\
    length (PointDetector.data self) = 2%nat /\
    PointDetector.data self = [Exact 0; Exact 0].
Proof.
  destruct small_point as [e | self] eqn:E; [vm_compute in E; discriminate |].
  destruct (point_data_starts_as_zeros (unit_grid 3 3 2)
              (Value (Exact 1), Value (Exact 2)) self E) as (L & _ & D).
  exists self. repeat (split; trivial).
Defined.

(** C10 on the 3 x 3 ring: fresh from the constructor, and still after a
    call of [plot], the default [plot_data] raises AttributeError. *)
Lemma circular_data_unassigned_before_update_witness :
  exists self,
    small_ring = inr self /\
    CircularDetector.data self = None /\
    CircularDetector.plot_data self CircularDetector.default_slc
      = inl (AttributeError "data").
Proof.
  destruct small_ring as [e | self] eqn:E; [vm_compute in E; discriminate |].
  assert (Ev : CircularDetector.evolves
                 (fun m => negb (CircularDetector.is_update_data m)) self self).
  { eapply CircularDetector.evolves_step with (m := CircularDetector.Plot);
      [apply CircularDetector.evolves_refl | reflexivity | reflexivity]. }
  destruct (circular_data_unassigned_before_update
              (unit_grid 3 3 2) [Value (Exact 1); Value (Exact 1)] (Exact 1)
              self self E Ev) as (D & P).
  exists self. repeat (split; trivial). apply P.
Defined.


(** * Further properties of the detectors *)

(** ** The geometry over the lifetime of a circular detector *)

Section Lifetime.
Context {V : Type} `{Numeric V}.

Lemma circular_post_init_fields (g : Grid V) (p : list (coordinate V)) (r : V)
    (s0 : CircularDetector.t V) :
  CircularDetector.__post_init__ g p r = inr s0 ->
  CircularDetector.grid s0 = g /\ CircularDetector.radius s0 = r /\
  CircularDetector.data s0 = None /\
  exists px py,
    tuple_item p 0 = inr px /\ tuple_item p 1 = inr py /\
    get_coordinate g px py = inr (CircularDetector.position s0).
Proof.
  unfold CircularDetector.__post_init__. intros E.
  invert_bind E. invert_bind E. invert_bind E.
  apply construct_object_inr in E. destruct E as (ri & drawn & _ & _ & _ & _ & ->).
  simpl. repeat split. eauto.
Qed.

(** A successful call on a built detector returns it with the geometry
    attributes it had. *)
Lemma circular_invoke_geometry (m : CircularDetector.method V)
    (self self' : CircularDetector.t V) (v : CircularDetector.returned V) :
  CircularDetector.built self ->
  CircularDetector.invoke m self = inr (v, self') ->
  CircularDetector.grid self' = CircularDetector.grid self /\
  CircularDetector.position self' = CircularDetector.position self /\
  CircularDetector.radius self' = CircularDetector.radius self /\
  CircularDetector.object_idx self' = CircularDetector.object_idx self /\
  CircularDetector.object_coordinate_index self' =
    CircularDetector.object_coordinate_index self /\
  CircularDetector.angle_list self' = CircularDetector.angle_list self.
Proof.
  intros B E. destruct m; simpl in E.
  - invert_bind E. injection E as _ <-.
    unfold CircularDetector.built in B. rewrite B in E0. injection E0 as <-.
    repeat split.
  - invert_bind E. injection E as _ <-.
    apply circular_update_data_frame in E0. destruct E0 as (d & ->). repeat split.
  - invert_bind E. injection E as _ <-. repeat split.
  - injection E as _ <-. repeat split.
  - injection E as _ <-. repeat split.
Qed.

(** X1. Whatever methods are called on a circular detector after its
    construction, in whatever order, [construct_object] included, its grid,
    resolved position, radius, mask, member coordinates and member angles
    stay the ones the constructor computed. *)
Theorem circular_geometry_is_fixed_for_life
    (allow : CircularDetector.method V -> bool)
    (g : Grid V) (p : list (coordinate V)) (r : V) (s0 self : CircularDetector.t V) :
  CircularDetector.__post_init__ g p r = inr s0 ->
  CircularDetector.evolves allow s0 self ->
  CircularDetector.grid self = g /\
  CircularDetector.radius self = r /\
  CircularDetector.position self = CircularDetector.position s0 /\
  CircularDetector.object_idx self = CircularDetector.object_idx s0 /\
  CircularDetector.object_coordinate_index self =
    CircularDetector.object_coordinate_index s0 /\
  CircularDetector.angle_list self = CircularDetector.angle_list s0.
Proof.
  intros I Ev.
  destruct (circular_post_init_fields g p r s0 I) as (Eg & Er & _ & _).
  pose proof (post_init_built g p r s0 I) as B0.
  induction Ev as [s | s s' s'' m v Ev IH A E].
  - repeat split; trivial.
  - destruct (IH I Eg Er B0) as (Hg & Hr & Hp & Hi & Hc & Ha).
    destruct (circular_invoke_geometry m s' s'' v (evolves_built allow s s' Ev B0) E)
      as (Hg' & Hp' & Hr' & Hi' & Hc' & Ha').
    repeat split; congruence.
Qed.
End Lifetime.

(** ** The member coordinates as an enumeration of the mask *)

Lemma strongly_sorted_app {A : Type} (R : A -> A -> Prop) (l1 l2 : list A) :
  StronglySorted R l1 -> StronglySorted R l2 ->
  (forall a b, In a l1 -> In b l2 -> R a b) ->
  StronglySorted R (l1 ++ l2).
Proof.
  induction l1 as [| a l1 IH]; intros S1 S2 C; simpl; trivial.
  inversion S1 as [| ? ? S1' F1]; subst. constructor.
  - apply IH; trivial. intros u w Iu Iw. apply C; [now right | trivial].
  - apply Forall_app. split; trivial.
    apply Forall_forall. intros w Iw. apply C; [now left | trivial].
Qed.

Lemma strongly_sorted_nth {A : Type} (R : A -> A -> Prop) (l : list A) (d : A) :
  StronglySorted R l ->
  forall m m', (m < m')%nat -> (m' < length l)%nat -> R (nth m l d) (nth m' l d).
Proof.
  induction 1 as [| a l S IH F]; intros m m' L L'; simpl in L'; [lia |].
  destruct m' as [| m']; [lia |]. destruct m as [| m]; simpl.
  - rewrite Forall_forall in F. apply F, nth_In. lia.
  - apply IH; lia.
Qed.

Lemma where_true_from_sorted (bs : list bool) :
  forall k, StronglySorted lt (where_true_from k bs).
Proof.
  induction bs as [| b bs IH]; intros k; simpl; [constructor |].
  destruct b; [| apply IH]. constructor; [apply IH |].
  apply Forall_forall. intros j I. apply where_true_from_In in I.
  destruct I as (j' & -> & _). lia.
Qed.

Lemma argwhere_from_sorted (rows : list (list bool)) :
  forall i, StronglySorted row_major_lt (argwhere_from i rows).
Proof.
  induction rows as [| bs rows IH]; intros i; simpl; [constructor |].
  apply strongly_sorted_app; [| apply IH |].
  - induction (where_true_from_sorted bs 0) as [| j l S IHl F]; simpl; constructor; trivial.
    apply Forall_map. eapply Forall_impl; [| exact F].
    intros j' Lj. right. simpl. split; [reflexivity | lia].
  - intros [r c] [r' c'] I1 I2.
    apply in_map_iff in I1. destruct I1 as (j & E & _). injection E as <- <-.
    apply argwhere_from_In in I2. destruct I2 as (k & j' & -> & _).
    left. simpl. lia.
Qed.

Section Enumeration.
Context {V : Type} `{Numeric V}.

(** X2. The member coordinates of a circular detector are exactly the true
    cells of its mask: every grid cell where the mask is true occurs among
    them, and nothing else does. *)
Theorem circular_member_coordinates_enumerate_the_mask (self : CircularDetector.t V) :
  CircularDetector.reachable self ->
  exists idx coords,
    CircularDetector.object_idx self = Some idx /\
    CircularDetector.object_coordinate_index self = Some coords /\
    forall r c : Z,
      (exists m, (m < snd (shape2 coords))%nat /\
                 CircularDetector.member_coordinate coords m = (r, c)) <->
      (0 <= r < Z.of_nat (fst (shape (CircularDetector.grid self))) /\
       0 <= c < Z.of_nat (snd (shape (CircularDetector.grid self))) /\
       CircularDetector.mask_at idx (Z.to_nat r) (Z.to_nat c) = true).
Proof.
  intros R.
  destruct (built_geometry self (reachable_built self R))
    as (ri & G & Ha & Hb & Ei & Ec & _).
  cbv zeta in Ei, Ec.
  set (g := CircularDetector.grid self) in *.
  set (p := CircularDetector.position self) in *.
  eexists. eexists. split; [exact Ei |]. split; [exact Ec |].
  destruct (argwhere_transposed (outline_mask g p ri)) as (Es & _). cbv zeta in Es.
  rewrite Es. cbn [snd].
  intros r c.
  assert (M : In (r, c) (argwhere_from 0 (rows2 (outline_mask g p ri))) <->
              0 <= r < Z.of_nat (fst (shape g)) /\ 0 <= c < Z.of_nat (snd (shape g)) /\
              CircularDetector.mask_at (outline_mask g p ri) (Z.to_nat r) (Z.to_nat c) = true).
  { rewrite outline_members. split; intros (Rr & Rc & O); repeat split; try lia.
    - rewrite outline_mask_at, !Z2Nat.id by lia. exact O.
    - rewrite outline_mask_at, !Z2Nat.id in O by lia. exact O. }
  rewrite <- M. split.
  - intros (m & L & E). rewrite member_coordinate_nth in E by trivial.
    rewrite <- E. now apply nth_In.
  - intros I. destruct (In_nth _ _ (0, 0) I) as (m & L & E).
    exists m. split; trivial. now rewrite member_coordinate_nth.
Qed.

(** X3. The member coordinates are listed in strictly increasing row-major
    order: rows ascending, columns ascending within a row.  In particular
    no cell is listed twice. *)
Theorem circular_member_coordinates_are_row_major (self : CircularDetector.t V) :
  CircularDetector.reachable self ->
  exists coords,
    CircularDetector.object_coordinate_index self = Some coords /\
    forall m m', (m < m')%nat -> (m' < snd (shape2 coords))%nat ->
      row_major_lt (CircularDetector.member_coordinate coords m)
                   (CircularDetector.member_coordinate coords m') /\
      CircularDetector.member_coordinate coords m
        <> CircularDetector.member_coordinate coords m'.
Proof.
  intros R.
  destruct (built_geometry self (reachable_built self R))
    as (ri & G & Ha & Hb & _ & Ec & _).
  cbv zeta in Ec.
  eexists. split; [exact Ec |].
  set (idx := outline_mask _ _ _).
  destruct (argwhere_transposed idx) as (Es & _). cbv zeta in Es.
  rewrite Es. cbn [snd]. intros m m' L L'.
  rewrite !member_coordinate_nth by lia.
  pose proof (strongly_sorted_nth row_major_lt _ (0, 0)
                (argwhere_from_sorted (rows2 idx) 0) m m' L L') as S.
  split; [exact S |].
  intros E. rewrite E in S. destruct S as [S | [_ S]]; lia.
Qed.
End Enumeration.

(** ** Errors and bounds of [update_data] *)

Lemma normalize_index_wraps (i : Z) (n : nat) :
  - Z.of_nat n <= i < Z.of_nat n ->
  normalize_index i n = inr (Z.to_nat (i mod Z.of_nat n)).
Proof.
  intros B. unfold normalize_index.
  destruct (Z_lt_ge_dec i 0) as [Neg | Pos].
  - replace (0 <=? i) with false by (symmetry; apply Z.leb_gt; lia). simpl.
    replace (- Z.of_nat n <=? i) with true by (symmetry; apply Z.leb_le; lia).
    replace (i <? 0) with true by (symmetry; apply Z.ltb_lt; lia). simpl.
    unfold ret. do 2 f_equal.
    rewrite <- (Z.mod_add i 1 (Z.of_nat n)) by lia.
    rewrite Z.mul_1_l, Z.mod_small; lia.
  - replace (0 <=? i) with true by (symmetry; apply Z.leb_le; lia).
    replace (i <? Z.of_nat n) with true by (symmetry; apply Z.ltb_lt; lia). simpl.
    unfold ret. do 2 f_equal. rewrite Z.mod_small; lia.
Qed.

Lemma normalize_index_out_of_range (i : Z) (n : nat) :
  ~ (- Z.of_nat n <= i < Z.of_nat n) ->
  normalize_index i n = inl IndexError.
Proof.
  intros B. unfold normalize_index.
  destruct ((0 <=? i) && (i <? Z.of_nat n)) eqn:E1.
  - apply andb_true_iff in E1. destruct E1 as [E1 E2].
    apply Z.leb_le in E1. apply Z.ltb_lt in E2. lia.
  - destruct ((- Z.of_nat n <=? i) && (i <? 0)) eqn:E2; trivial.
    apply andb_true_iff in E2. destruct E2 as [E2 E3].
    apply Z.leb_le in E2. apply Z.ltb_lt in E3. lia.
Qed.

Section UpdateErrors.
Context {V : Type} `{Numeric V}.

(** X4. [update_data] of a circular detector accepts a field exactly when
    its two trailing extents are the grid's shape; any other field is
    refused with IndexError, whatever its contents.  The number of time
    entries is not restricted. *)
Theorem circular_update_data_checks_the_shape
    (self : CircularDetector.t V) (field : array3 V) (nt nr nc : nat) :
  CircularDetector.reachable self ->
  shape3 field = (nt, nr, nc) ->
  (shape (CircularDetector.grid self) = (nr, nc) /\
   exists d, CircularDetector.update_data self field
             = inr (CircularDetector.set_data self d) /\
             fst (shape2 d) = nt) \/
  (shape (CircularDetector.grid self) <> (nr, nc) /\
   CircularDetector.update_data self field = inl IndexError).
Proof.
  intros R Sf.
  destruct (built_geometry self (reachable_built self R))
    as (ri & _ & _ & _ & Ei & _ & _).
  cbv zeta in Ei.
  destruct (outline_mask_shape (CircularDetector.grid self)
              (CircularDetector.position self) ri) as [Sm _].
  unfold CircularDetector.update_data. rewrite Ei. simpl.
  rewrite ne_scalar_0. unfold getitem_mask. rewrite Sf, Sm.
  destruct (shape (CircularDetector.grid self)) as [gr gc]. simpl.
  destruct (Nat.eqb_spec gr nr) as [-> | Nr]; simpl.
  - destruct (Nat.eqb_spec gc nc) as [-> | Nc]; simpl.
    + left. split; trivial. eexists. split; reflexivity.
    + right. split; trivial. intros E. now injection E.
  - right. split; trivial. intros E. now injection E.
Qed.

(** X5. [update_data] of a point detector compares the resolved index with
    the extents of the field it is given, not with the grid: an index in
    [-n, n) on both axes is accepted, a negative one counting from the end
    of its axis, and anything else raises IndexError. *)
Theorem point_update_data_index_bounds
    (self : PointDetector.t V) (field : array3 V) (nt nr nc : nat) :
  shape3 field = (nt, nr, nc) ->
  let i := Position.x_index (PointDetector.position self) in
  let j := Position.y_index (PointDetector.position self) in
  ((- Z.of_nat nr <= i < Z.of_nat nr) /\ (- Z.of_nat nc <= j < Z.of_nat nc) ->
   exists self',
     PointDetector.update_data self field = inr self' /\
     PointDetector.data self' =
       map (fun frame => cell zero frame (Z.to_nat (i mod Z.of_nat nr))
                              (Z.to_nat (j mod Z.of_nat nc)))
           (frames3 field)) /\
  (~ ((- Z.of_nat nr <= i < Z.of_nat nr) /\ (- Z.of_nat nc <= j < Z.of_nat nc)) ->
   PointDetector.update_data self field = inl IndexError).
Proof.
  intros Sf i j. unfold PointDetector.update_data, getitem_point. rewrite Sf.
  fold i j. split.
  - intros [Bi Bj].
    rewrite (normalize_index_wraps i nr Bi), (normalize_index_wraps j nc Bj). simpl.
    eexists. split; reflexivity.
  - intros N.
    destruct (Z_le_dec (- Z.of_nat nr) i) as [L |];
      [destruct (Z_lt_dec i (Z.of_nat nr)) as [U |] |].
    + rewrite (normalize_index_wraps i nr (conj L U)). simpl.
      rewrite normalize_index_out_of_range by tauto. reflexivity.
    + rewrite normalize_index_out_of_range by lia. reflexivity.
    + rewrite normalize_index_out_of_range by lia. reflexivity.
Qed.

(** X6. A detector keeps no history of its own: after one successful
    [update_data], a second call behaves as if the first had not happened,
    for the circular and for the point detector. *)
Theorem update_data_keeps_no_history :
  (forall (self s1 : CircularDetector.t V) (f1 f2 : array3 V),
      CircularDetector.update_data self f1 = inr s1 ->
      CircularDetector.update_data s1 f2 = CircularDetector.update_data self f2) /\
  (forall (self s1 : PointDetector.t V) (f1 f2 : array3 V),
      PointDetector.update_data self f1 = inr s1 ->
      PointDetector.update_data s1 f2 = PointDetector.update_data self f2).
Proof.
  split.
  - intros self s1 f1 f2 U.
    apply circular_update_data_frame in U. destruct U as (d & ->).
    unfold CircularDetector.update_data. simpl.
    destruct (getattr "object_idx" (CircularDetector.object_idx self)) as [e | idx];
      simpl; trivial.
  - intros self s1 f1 f2 U.
    unfold PointDetector.update_data in *. invert_bind U. injection U as <-. simpl.
    destruct (getitem_point zero f2 _ _) as [e | d2]; simpl; trivial.
Qed.

(** X7. [update_data] of a circular detector looks at the member cells
    only: two histories of the same shape that agree on every member cell
    at every time leave the detector in the same state, however they
    differ elsewhere. *)
Theorem circular_update_data_reads_member_cells_only
    (self : CircularDetector.t V) (coords : array2 Z) (f1 f2 : array3 V)
    (nt nr nc : nat) :
  CircularDetector.reachable self ->
  CircularDetector.object_coordinate_index self = Some coords ->
  shape3 f1 = (nt, nr, nc) -> well_shaped3 f1 = true ->
  shape3 f2 = (nt, nr, nc) -> well_shaped3 f2 = true ->
  (forall t m, (t < nt)%nat -> (m < snd (shape2 coords))%nat ->
     let rc := CircularDetector.member_coordinate coords m in
     item3 zero f1 t (Z.to_nat (fst rc)) (Z.to_nat (snd rc)) =
     item3 zero f2 t (Z.to_nat (fst rc)) (Z.to_nat (snd rc))) ->
  CircularDetector.update_data self f1 = CircularDetector.update_data self f2.
Proof.
  intros R Ec S1 W1 S2 W2 Agree.
  destruct (built_geometry self (reachable_built self R))
    as (ri & _ & _ & _ & Ei & Ec' & _).
  cbv zeta in Ei, Ec'. rewrite Ec in Ec'. injection Ec' as ->.
  destruct (outline_mask_shape (CircularDetector.grid self)
              (CircularDetector.position self) ri) as [Sm Wm].
  remember (outline_mask (CircularDetector.grid self) (CircularDetector.position self) ri)
    as idx eqn:Eidx. clear Eidx.
  destruct (argwhere_transposed idx) as (Es & _). cbv zeta in Es.
  rewrite Es in Agree. cbn [snd] in Agree.
  unfold CircularDetector.update_data. rewrite Ei. simpl.
  rewrite ne_scalar_0. unfold getitem_mask. rewrite S1, S2.
  destruct (Nat.eqb_spec (fst (shape2 idx)) nr) as [Er | Nr]; simpl; trivial.
  destruct (Nat.eqb_spec (snd (shape2 idx)) nc) as [Ecn | Nc]; simpl; trivial.
  unfold well_shaped2 in Wm. rewrite Er, Ecn in Wm.
  apply well_shaped_rows_spec in Wm. destruct Wm as [Lm Fm].
  assert (L1 : length (frames3 f1) = nt).
  { unfold well_shaped3 in W1. rewrite S1 in W1.
    apply andb_true_iff in W1. now apply Nat.eqb_eq. }
  assert (L2 : length (frames3 f2) = nt).
  { unfold well_shaped3 in W2. rewrite S2 in W2.
    apply andb_true_iff in W2. now apply Nat.eqb_eq. }
  unfold ret. do 3 f_equal.
  apply (nth_ext _ _ [] []); [now rewrite !length_map, L1, L2 |].
  intros t Lt. rewrite length_map, L1 in Lt.
  rewrite !(nth_map_in _ _ t []) by lia.
  pose proof (well_shaped3_nth f1 nt nr nc t S1 W1 Lt) as Wt1.
  pose proof (well_shaped3_nth f2 nt nr nc t S2 W2 Lt) as Wt2.
  apply well_shaped_rows_spec in Wt1, Wt2.
  destruct Wt1 as [La1 Fa1], Wt2 as [La2 Fa2].
  rewrite (select_frame_argwhere zero nc (rows2 idx) (nth t (frames3 f1) []) [])
    by (trivial; congruence).
  rewrite (select_frame_argwhere zero nc (rows2 idx) (nth t (frames3 f2) []) [])
    by (trivial; congruence).
  simpl. apply map_ext_in. intros rc I.
  destruct (In_nth _ _ (0, 0) I) as (m & Lm' & <-).
  specialize (Agree t m Lt Lm'). cbv zeta in Agree.
  rewrite member_coordinate_nth in Agree by trivial. exact Agree.
Qed.
End UpdateErrors.

(** ** Selections in [plot_data] *)

Lemma slice_indices_succeeds (start stop step : option Z) (len : Z) :
  step <> Some 0 ->
  exists a b c, slice_indices start stop step len = inr (a, b, c).
Proof.
  intros N. unfold slice_indices.
  destruct step as [s |].
  - destruct (Z.eqb_spec s 0) as [-> | _]; [congruence |]. unfold ret. eauto.
  - simpl. unfold ret. eauto.
Qed.

Lemma range_positions_whole (n : nat) : range_positions 0 (Z.of_nat n) 1 = seq 0 n.
Proof.
  unfold range_positions. change (0 <? 1) with true. cbv iota.
  assert (E : Z.to_nat (if 0 <? Z.of_nat n then (Z.of_nat n - 0 - 1) / 1 + 1 else 0) = n).
  { destruct (Z.ltb_spec 0 (Z.of_nat n)); [rewrite Z.div_1_r |]; lia. }
  rewrite E. rewrite <- (map_id (seq 0 n)) at 2.
  apply map_ext. intros k. lia.
Qed.

Lemma range_positions_last (n : nat) :
  range_positions (Z.max (-1 + Z.of_nat (S n)) 0) (Z.of_nat (S n)) 1 = [n].
Proof.
  unfold range_positions. change (0 <? 1) with true. cbv iota.
  replace (Z.max (-1 + Z.of_nat (S n)) 0) with (Z.of_nat n) by lia.
  replace (Z.of_nat n <? Z.of_nat (S n)) with true by (symmetry; apply Z.ltb_lt; lia).
  replace (Z.of_nat (S n) - Z.of_nat n - 1) with 0 by lia.
  simpl. f_equal. lia.
Qed.

Lemma map_nth_over_seq {A : Type} (l : list A) (d : A) (n : nat) :
  length l = n -> map (fun m => nth m l d) (seq 0 n) = l.
Proof.
  intros <-. apply (nth_ext _ _ d d); [now rewrite length_map, length_seq |].
  intros m L. rewrite length_map, length_seq in L.
  rewrite (nth_map_in _ _ m 0%nat) by now rewrite length_seq.
  now rewrite seq_nth.
Qed.

Section Selections.
Context {V : Type} `{Numeric V}.

Lemma circular_update_data_fits (self self' : CircularDetector.t V) (field : array3 V) :
  CircularDetector.built self ->
  CircularDetector.update_data self field = inr self' ->
  data_fits_angles self'.
Proof.
  intros B U.
  destruct (built_geometry self B) as (ri & _ & _ & _ & Ei & _ & Ea).
  cbv zeta in Ei, Ea.
  unfold CircularDetector.update_data in U. rewrite Ei in U. simpl in U.
  rewrite ne_scalar_0 in U. unfold getitem_mask in U.
  destruct (shape3 field) as [[nt nr] nc].
  destruct (_ && _); simpl in U; [| discriminate].
  injection U as <-.
  intros d angles Ed Eang. simpl in Ed, Eang.
  injection Ed as <-. rewrite Ea in Eang. injection Eang as <-.
  simpl. now rewrite length_map, argwhere_from_length.
Qed.

Lemma circular_invoke_fits (m : CircularDetector.method V)
    (self self' : CircularDetector.t V) (v : CircularDetector.returned V) :
  CircularDetector.built self -> data_fits_angles self ->
  CircularDetector.invoke m self = inr (v, self') ->
  data_fits_angles self'.
Proof.
  intros B F E.
  destruct (CircularDetector.is_update_data m) eqn:U.
  - destruct m; try discriminate. simpl in E. invert_bind E. injection E as _ <-.
    eapply circular_update_data_fits; eauto.
  - pose proof (circular_invoke_data m self self' v E U) as Ed.
    destruct (circular_invoke_geometry m self self' v B E) as (_ & _ & _ & _ & _ & Ea).
    intros d angles Hd Ha. rewrite Ed in Hd. rewrite Ea in Ha. now apply F.
Qed.

Lemma reachable_fits (self : CircularDetector.t V) :
  CircularDetector.reachable self -> data_fits_angles self.
Proof.
  intros (g & p & r & s0 & I & Ev).
  pose proof (post_init_built g p r s0 I) as B0.
  induction Ev as [s | s s' s'' m v Ev IH A E].
  - destruct (circular_post_init_fields g p r s I) as (_ & _ & D & _).
    intros d angles Hd. rewrite D in Hd. discriminate.
  - eapply circular_invoke_fits; [| apply IH; trivial | exact E].
    eapply evolves_built; eauto.
Qed.

(** X8. On a detector that has been updated, [plot_data] with a slice of
    nonzero step always succeeds, however far the bounds of the slice reach,
    and plots exactly one aggregate per member angle; a slice with step 0
    raises ValueError. *)
Theorem circular_plot_data_over_a_slice
    (self : CircularDetector.t V) (d : array2 V) (start stop step : option Z) :
  CircularDetector.reachable self ->
  CircularDetector.data self = Some d ->
  (step = Some 0 ->
   CircularDetector.plot_data self (Slice start stop step) = inl ValueError) /\
  (step <> Some 0 ->
   exists agg angles,
     CircularDetector.angle_list self = Some angles /\
     CircularDetector.aggregate self (Slice start stop step) = inr (Arr1 agg) /\
     length agg = length angles /\
     CircularDetector.plot_data self (Slice start stop step) =
     inr (Build_SceneList (Some (5, 5))
            [Build_Axis [("projection"%string, "polar"%string)]
               [add_scatter (Arr1 angles) (Arr1 agg) []]])).
Proof.
  intros R D. split.
  - intros ->. unfold CircularDetector.plot_data, CircularDetector.aggregate, getitem_time.
    rewrite D. simpl. destruct (shape2 d) as [nt nm]. reflexivity.
  - intros N.
    destruct (built_geometry self (reachable_built self R))
      as (ri & _ & _ & _ & _ & _ & Ea).
    cbv zeta in Ea.
    destruct (shape2 d) as [nt nm] eqn:Sd.
    destruct (slice_indices_succeeds start stop step (Z.of_nat nt) N) as (a & b & c & I).
    pose proof (aggregate_over_slice self d nt nm start stop step a b c D Sd I) as A.
    eexists. eexists. split; [exact Ea |]. split; [exact A |].
    split.
    + rewrite length_map, length_seq.
      pose proof (reachable_fits self R d _ D Ea) as F. now rewrite Sd in F.
    + unfold CircularDetector.plot_data. rewrite A, Ea. reflexivity.
Qed.

(** X9. With an integer selection [plot_data] sums over the member cells of
    the selected time: an index in [-T, T) yields one scalar, a negative
    index counting from the latest time; any other index raises IndexError,
    and so does every integer, the default -1 included, when the history
    is empty. *)
Theorem circular_plot_data_at_an_integer_index
    (self : CircularDetector.t V) (d : array2 V) (nt nm : nat) (i : Z) :
  CircularDetector.data self = Some d ->
  shape2 d = (nt, nm) ->
  (- Z.of_nat nt <= i < Z.of_nat nt ->
   CircularDetector.aggregate self (Int i) =
   inr (Arr0 (sum_list (map absolute (row2 d (Z.to_nat (i mod Z.of_nat nt))))))) /\
  (~ (- Z.of_nat nt <= i < Z.of_nat nt) ->
   CircularDetector.aggregate self (Int i) = inl IndexError /\
   CircularDetector.plot_data self (Int i) = inl IndexError).
Proof.
  intros D S.
  unfold CircularDetector.plot_data, CircularDetector.aggregate, getitem_time.
  rewrite D. simpl. rewrite S. split.
  - intros B. now rewrite normalize_index_wraps.
  - intros B. now rewrite normalize_index_out_of_range.
Qed.

(** X10. What the slices deliver.  The slice over everything sums, for every
    member cell, the magnitudes over all times.  The slice [slice(-1, None)]
    over the latest time yields the magnitudes of the member cells at that
    time, one per cell; on an empty history it yields zeros, where the
    integer -1 would raise. *)
Theorem circular_aggregate_of_whole_and_latest
    (self : CircularDetector.t V) (d : array2 V) (nt nm : nat) :
  CircularDetector.data self = Some d ->
  shape2 d = (nt, nm) ->
  well_shaped2 d = true ->
  CircularDetector.aggregate self (Slice None None None) =
    inr (Arr1 (map (fun m => sum_list (map (fun t => absolute (nth m (row2 d t) zero))
                                           (seq 0 nt)))
                   (seq 0 nm))) /\
  (forall last, nt = S last ->
     CircularDetector.aggregate self (Slice (Some (-1)) None None) =
       inr (Arr1 (map absolute (row2 d last)))) /\
  (nt = 0%nat ->
     CircularDetector.aggregate self (Slice (Some (-1)) None None) =
       inr (Arr1 (repeat zero nm))).
Proof.
  intros D Sd W.
  assert (Abs : forall t m, (t < nt)%nat -> (m < nm)%nat ->
            nth m (map absolute (row2 d t)) zero = absolute (nth m (row2 d t) zero)).
  { intros t m Lt Lm. apply nth_map_in.
    unfold well_shaped2 in W. rewrite Sd in W. simpl in W.
    unfold row2. now rewrite (well_shaped_rows_nth nt nm _ t W Lt). }
  split; [| split].
  - rewrite (aggregate_over_slice self d nt nm None None None 0 (Z.of_nat nt) 1 D Sd eq_refl).
    rewrite range_positions_whole. do 2 f_equal.
    apply map_ext_in. intros m Im. apply in_seq in Im. f_equal.
    apply map_ext_in. intros t It. apply in_seq in It. apply Abs; lia.
  - intros last ->.
    rewrite (aggregate_over_slice self d (S last) nm (Some (-1)) None None
               (Z.max (-1 + Z.of_nat (S last)) 0) (Z.of_nat (S last)) 1 D Sd eq_refl).
    rewrite range_positions_last. simpl. do 2 f_equal.
    apply map_nth_over_seq. rewrite length_map.
    unfold well_shaped2 in W. rewrite Sd in W. simpl in W.
    unfold row2. apply (well_shaped_rows_nth (S last) nm _ last W). lia.
  - intros ->.
    rewrite (aggregate_over_slice self d 0 nm (Some (-1)) None None 0 0 1 D Sd eq_refl).
    simpl. do 2 f_equal.
    apply (nth_ext _ _ zero zero); [now rewrite length_map, length_seq, repeat_length |].
    intros m L. rewrite length_map, length_seq in L.
    rewrite (nth_map_in _ _ m 0%nat) by now rewrite length_seq.
    now rewrite nth_repeat_lt.
Qed.
End Selections.

(** ** The plots *)

Section Plots.
Context {V : Type} `{Numeric V}.

(** X11. The time-series plot of a point detector always has the grid's
    time stamps as abscissa and the current [data] as ordinate: the zeros
    of the constructor before any update, and after an update with a
    history of T entries the T samples of the detector's cell, without
    either sequence being cut or padded to the length of the other. *)
Theorem point_plot_data_draws_the_current_series
    (g : Grid V) (p : coordinate V * coordinate V) (s0 : PointDetector.t V)
    (field : array3 V) (nt nr nc : nat) :
  PointDetector.__post_init__ g p = inr s0 ->
  shape3 field = (nt, nr, nc) ->
  well_shaped3 field = true ->
  0 <= Position.x_index (PointDetector.position s0) < Z.of_nat nr ->
  0 <= Position.y_index (PointDetector.position s0) < Z.of_nat nc ->
  PointDetector.plot_data s0 =
    Build_SceneList None
      [Build_Axis [] [add_line (time_stamp g) (repeat zero (n_steps g))]] /\
  exists s1 samples,
    PointDetector.update_data s0 field = inr s1 /\
    PointDetector.plot_data s1 =
      Build_SceneList None [Build_Axis [] [add_line (time_stamp g) samples]] /\
    length samples = nt /\
    forall t, (t < nt)%nat ->
      nth t samples zero =
      item3 zero field t (Z.to_nat (Position.x_index (PointDetector.position s0)))
                         (Z.to_nat (Position.y_index (PointDetector.position s0))).
Proof.
  intros I Sf Wf Bx By.
  unfold PointDetector.__post_init__ in I. invert_bind I. injection I as <-.
  simpl in *. split; [reflexivity |].
  assert (Lf : length (frames3 field) = nt).
  { unfold well_shaped3 in Wf. rewrite Sf in Wf.
    apply andb_true_iff in Wf. now apply Nat.eqb_eq. }
  unfold PointDetector.update_data, getitem_point. simpl. rewrite Sf.
  rewrite !normalize_index_in_range by trivial. simpl.
  eexists. eexists. split; [reflexivity |]. split; [reflexivity |].
  split; [simpl; now rewrite length_map |].
  intros t Lt. simpl. unfold item3. now rewrite (nth_map_in _ _ t []) by lia.
Qed.

(** X12. The geometry overlays compose and ignore the samples: drawing a
    circular and then a point detector on an axis keeps the options and the
    earlier artists of the axis and appends the circle and the marker in
    that order; and the overlay of a detector is the same before and after
    [update_data]. *)
Theorem overlays_append_and_ignore_data
    (c : CircularDetector.t V) (p : PointDetector.t V) (ax : Axis V) :
  let marked := PointDetector.add_to_ax p (CircularDetector.add_to_ax c ax) in
  options marked = options ax /\
  artists marked =
    artists ax ++
      [ add_circle (Position.x (CircularDetector.position c),
                    Position.y (CircularDetector.position c))
          (CircularDetector.radius c)
          [("label"%string, "detector"%string); ("facecolor"%string, "none"%string);
           ("edgecolor"%string, "black"%string)];
        add_scatter (Arr0 (Position.x (PointDetector.position p)))
          (Arr0 (Position.y (PointDetector.position p)))
          [("color"%string, "black"%string); ("marker_size"%string, "20"%string);
           ("label"%string, "detector"%string)] ] /\
  (forall field c',
      CircularDetector.update_data c field = inr c' ->
      CircularDetector.add_to_ax c' ax = CircularDetector.add_to_ax c ax /\
      CircularDetector.plot c' = CircularDetector.plot c) /\
  (forall field p',
      PointDetector.update_data p field = inr p' ->
      PointDetector.add_to_ax p' ax = PointDetector.add_to_ax p ax).
Proof.
  cbv zeta. split; [reflexivity |]. split.
  - unfold PointDetector.add_to_ax, CircularDetector.add_to_ax. simpl.
    now rewrite <- app_assoc.
  - split.
    + intros field c' U. apply circular_update_data_frame in U.
      destruct U as (d & ->). split; reflexivity.
    + intros field p' U. unfold PointDetector.update_data in U.
      invert_bind U. injection U as <-. reflexivity.
Qed.

(** X13. A history without time entries is accepted by [update_data]; from
    then on the default [plot_data] raises IndexError, while the slice over
    everything plots a zero for every member angle. *)
Theorem circular_empty_history
    (self : CircularDetector.t V) (field : array3 V) (nr nc : nat) :
  CircularDetector.reachable self ->
  shape3 field = (0%nat, nr, nc) ->
  shape (CircularDetector.grid self) = (nr, nc) ->
  exists self' angles,
    CircularDetector.update_data self field = inr self' /\
    CircularDetector.angle_list self' = Some angles /\
    CircularDetector.plot_data self' CircularDetector.default_slc = inl IndexError /\
    CircularDetector.plot_data self' (Slice None None None) =
    inr (Build_SceneList (Some (5, 5))
           [Build_Axis [("projection"%string, "polar"%string)]
              [add_scatter (Arr1 angles) (Arr1 (repeat zero (length angles))) []]]).
Proof.
  intros R Sf Sg.
  destruct (built_geometry self (reachable_built self R))
    as (ri & _ & _ & _ & Ei & _ & Ea).
  cbv zeta in Ei, Ea.
  destruct (outline_mask_shape (CircularDetector.grid self)
              (CircularDetector.position self) ri) as [Sm _].
  rewrite Sg in Sm.
  remember (outline_mask (CircularDetector.grid self) (CircularDetector.position self) ri)
    as idx eqn:Eidx. clear Eidx.
  unfold CircularDetector.update_data. rewrite Ei. simpl.
  rewrite ne_scalar_0. unfold getitem_mask. rewrite Sf, Sm. simpl.
  rewrite !Nat.eqb_refl. simpl.
  eexists. eexists. split; [reflexivity |]. split; [exact Ea |].
  split; [reflexivity |].
  unfold CircularDetector.plot_data, CircularDetector.aggregate. simpl.
  rewrite Ea. simpl. unfold ret. do 6 f_equal.
  rewrite length_map, argwhere_from_length. f_equal.
  apply (nth_ext _ _ zero zero); [now rewrite length_map, length_seq, repeat_length |].
  intros m L. rewrite length_map, length_seq in L.
  rewrite (nth_map_in _ _ m 0%nat) by now rewrite length_seq.
  now rewrite nth_repeat_lt.
Qed.
End Plots.

(** ** The size of the sample *)


Section SampleSize.
Context {V : Type} `{Numeric V}.

End SampleSize.

(** * The further properties at concrete detectors *)

Lemma small_ring_updated_reachable (self : CircularDetector.t symbolic) :
  small_ring_updated = inr self -> CircularDetector.reachable self.
Proof.
  unfold small_ring_updated. intros E.
  destruct small_ring as [e | s0] eqn:E0; [discriminate |]. simpl in E.
  exists (unit_grid 3 3 2), [Value (Exact 1); Value (Exact 1)], (Exact 1), s0.
  split; [exact E0 |].
  eapply CircularDetector.evolves_step with (m := CircularDetector.UpdateData ramp_field);
    [apply CircularDetector.evolves_refl | reflexivity | simpl; rewrite E; reflexivity].
Defined.

(** X1 on the 3 x 3 ring, updated with the ramp. *)
Lemma circular_geometry_is_fixed_for_life_witness :
  exists s0 s1,
    small_ring = inr s0 /\
    CircularDetector.update_data s0 ramp_field = inr s1 /\
    CircularDetector.grid s1 = unit_grid 3 3 2 /\
    CircularDetector.object_idx s1 = CircularDetector.object_idx s0 /\
    CircularDetector.object_coordinate_index s1 =
      CircularDetector.object_coordinate_index s0 /\
    CircularDetector.angle_list s1 = CircularDetector.angle_list s0.
Proof.
  destruct small_ring as [e | s0] eqn:E; [vm_compute in E; discriminate |].
  destruct (CircularDetector.update_data s0 ramp_field) as [e | s1] eqn:U.
  { vm_compute in E. injection E as <-. vm_compute in U. discriminate. }
  assert (Ev : CircularDetector.evolves (fun _ => true) s0 s1).
  { eapply CircularDetector.evolves_step with (m := CircularDetector.UpdateData ramp_field);
      [apply CircularDetector.evolves_refl | reflexivity | simpl; rewrite U; reflexivity]. }
  destruct (circular_geometry_is_fixed_for_life (fun _ => true)
              (unit_grid 3 3 2) [Value (Exact 1); Value (Exact 1)] (Exact 1) s0 s1 E Ev)
    as (Hg & _ & _ & Hi & Hc & Ha).
  exists s0, s1. repeat (split; trivial).
Defined.

(** X2 on the 3 x 3 ring. *)
Lemma circular_member_coordinates_enumerate_the_mask_witness :
  exists self idx coords,
    small_ring = inr self /\
    CircularDetector.object_idx self = Some idx /\
    CircularDetector.object_coordinate_index self = Some coords /\
    forall r c : Z,
      (exists m, (m < snd (shape2 coords))%nat /\
                 CircularDetector.member_coordinate coords m = (r, c)) <->
      (0 <= r < Z.of_nat (fst (shape (CircularDetector.grid self))) /\
       0 <= c < Z.of_nat (snd (shape (CircularDetector.grid self))) /\
       CircularDetector.mask_at idx (Z.to_nat r) (Z.to_nat c) = true).
Proof.
  destruct small_ring as [e | self] eqn:E; [vm_compute in E; discriminate |].
  destruct (circular_member_coordinates_enumerate_the_mask self
              (small_ring_reachable self E)) as (idx & coords & Ei & Ec & P).
  exists self, idx, coords. repeat (split; trivial); apply P.
Defined.

(** X3 on the 3 x 3 ring. *)
Lemma circular_member_coordinates_are_row_major_witness :
  exists self coords,
    small_ring = inr self /\
    CircularDetector.object_coordinate_index self = Some coords /\
    forall m m', (m < m')%nat -> (m' < snd (shape2 coords))%nat ->
      row_major_lt (CircularDetector.member_coordinate coords m)
                   (CircularDetector.member_coordinate coords m').
Proof.
  destruct small_ring as [e | self] eqn:E; [vm_compute in E; discriminate |].
  destruct (circular_member_coordinates_are_row_major self
              (small_ring_reachable self E)) as (coords & Ec & P).
  exists self, coords. repeat (split; trivial). intros m m' L L'. now apply P.
Defined.

(** X4 on the 3 x 3 ring: a history over a 2 x 3 raster is refused. *)
Lemma circular_update_data_checks_the_shape_witness :
  exists self,
    small_ring = inr self /\
    CircularDetector.update_data self narrow_field = inl IndexError.
Proof.
  destruct small_ring as [e | self] eqn:E; [vm_compute in E; discriminate |].
  assert (Sg : shape (CircularDetector.grid self) = (3%nat, 3%nat)).
  { vm_compute in E. injection E as <-. reflexivity. }
  exists self. split; [reflexivity |].
  destruct (circular_update_data_checks_the_shape self narrow_field 1 2 3
              (small_ring_reachable self E) eq_refl) as [[S _] | [_ U]]; [| exact U].
  rewrite Sg in S. discriminate.
Defined.

(** X5 on a point detector resolved to the row index -1: with three rows
    the samples come from row 2. *)
Lemma point_update_data_index_bounds_witness :
  exists self',
    PointDetector.update_data wrapped_point ramp_field = inr self' /\
    PointDetector.data self' = [Exact 8; Exact (-8)].
Proof.
  assert (B : (- Z.of_nat 3 <= -1 < Z.of_nat 3) /\ (- Z.of_nat 3 <= 1 < Z.of_nat 3))
    by (simpl; lia).
  destruct (proj1 (point_update_data_index_bounds wrapped_point ramp_field 2 3 3 eq_refl) B)
    as (self' & U & D).
  exists self'. split; [exact U |]. rewrite D. reflexivity.
Defined.

(** X6 on the 3 x 3 ring: the ramp, then the other history. *)
Lemma update_data_keeps_no_history_witness :
  exists self s1,
    small_ring = inr self /\
    CircularDetector.update_data self ramp_field = inr s1 /\
    CircularDetector.update_data s1 ramp_field_other_middle =
    CircularDetector.update_data self ramp_field_other_middle.
Proof.
  destruct small_ring as [e | self] eqn:E; [vm_compute in E; discriminate |].
  destruct (CircularDetector.update_data self ramp_field) as [e | s1] eqn:U.
  { vm_compute in E. injection E as <-. vm_compute in U. discriminate. }
  exists self, s1. split; [reflexivity |]. split; [exact U |].
  exact (proj1 update_data_keeps_no_history self s1 ramp_field ramp_field_other_middle U).
Defined.

(** X7 on the 3 x 3 ring: the two histories differ at the middle cell
    only, which is not a member. *)
Lemma circular_update_data_reads_member_cells_only_witness :
  exists self,
    small_ring = inr self /\
    CircularDetector.update_data self ramp_field =
    CircularDetector.update_data self ramp_field_other_middle.
Proof.
  destruct small_ring as [e | self] eqn:E; [vm_compute in E; discriminate |].
  pose proof (small_ring_reachable self E) as R.
  assert (Ec : CircularDetector.object_coordinate_index self =
               Some (Array2 (2%nat, 4%nat) [[0; 1; 1; 2]; [1; 0; 2; 1]])).
  { vm_compute in E. injection E as <-. reflexivity. }
  exists self. split; [reflexivity |].
  apply (circular_update_data_reads_member_cells_only self _ ramp_field
           ramp_field_other_middle 2 3 3 R Ec eq_refl eq_refl eq_refl eq_refl).
  intros t m Lt Lm. simpl in Lm.
  destruct t as [| [| t]]; [| | lia];
    (destruct m as [| [| [| [| m]]]]; [reflexivity | reflexivity | reflexivity | reflexivity | lia]).
Defined.

(** X8 on the updated 3 x 3 ring, with the slice [::2]. *)
Lemma circular_plot_data_over_a_slice_witness :
  exists self agg angles,
    small_ring_updated = inr self /\
    CircularDetector.angle_list self = Some angles /\
    CircularDetector.aggregate self (Slice None None (Some 2)) = inr (Arr1 agg) /\
    length agg = length angles /\
    CircularDetector.plot_data self (Slice (Some 0) (Some 1) (Some 0)) = inl ValueError.
Proof.
  destruct small_ring_updated as [e | self] eqn:E; [vm_compute in E; discriminate |].
  pose proof (small_ring_updated_reachable self E) as R.
  destruct (CircularDetector.data self) as [d |] eqn:D.
  2: { vm_compute in E. injection E as <-. discriminate. }
  assert (N : Some 2 <> Some 0) by discriminate.
  destruct (proj2 (circular_plot_data_over_a_slice self d None None (Some 2) R D) N)
    as (agg & angles & Ea & A & L & _).
  exists self, agg, angles. repeat (split; trivial).
  exact (proj1 (circular_plot_data_over_a_slice self d (Some 0) (Some 1) (Some 0) R D)
           eq_refl).
Defined.

(** X9 on the updated 3 x 3 ring: two time entries, index 2. *)
Lemma circular_plot_data_at_an_integer_index_witness :
  exists self,
    small_ring_updated = inr self /\
    CircularDetector.aggregate self (Int (-2)) = inr (Arr0 (Exact 20)) /\
    CircularDetector.plot_data self (Int 2) = inl IndexError.
Proof.
  destruct small_ring_updated as [e | self] eqn:E; [vm_compute in E; discriminate |].
  assert (D : CircularDetector.data self =
              Some (Array2 (2%nat, 4%nat)
                      [[Exact 2; Exact 4; Exact 6; Exact 8];
                       [Exact (-2); Exact (-4); Exact (-6); Exact (-8)]])).
  { vm_compute in E. injection E as <-. reflexivity. }
  exists self. split; [reflexivity |].
  destruct (circular_plot_data_at_an_integer_index self _ 2 4 (-2) D eq_refl) as [In_range _].
  destruct (circular_plot_data_at_an_integer_index self _ 2 4 2 D eq_refl) as [_ Out].
  split.
  - rewrite In_range by (simpl; lia). reflexivity.
  - apply Out. simpl. lia.
Defined.

(** X10 on the updated 3 x 3 ring. *)
Lemma circular_aggregate_of_whole_and_latest_witness :
  exists self,
    small_ring_updated = inr self /\
    CircularDetector.aggregate self (Slice None None None) =
      inr (Arr1 [Exact 4; Exact 8; Exact 12; Exact 16]) /\
    CircularDetector.aggregate self (Slice (Some (-1)) None None) =
      inr (Arr1 [Exact 2; Exact 4; Exact 6; Exact 8]).
Proof.
  destruct small_ring_updated as [e | self] eqn:E; [vm_compute in E; discriminate |].
  assert (D : CircularDetector.data self =
              Some (Array2 (2%nat, 4%nat)
                      [[Exact 2; Exact 4; Exact 6; Exact 8];
                       [Exact (-2); Exact (-4); Exact (-6); Exact (-8)]])).
  { vm_compute in E. injection E as <-. reflexivity. }
  exists self. split; [reflexivity |].
  destruct (circular_aggregate_of_whole_and_latest self _ 2 4 D eq_refl eq_refl)
    as (Whole & Latest & _).
  split; [rewrite Whole | rewrite (Latest 1%nat eq_refl)]; reflexivity.
Defined.

(** X11 on the point detector at (1, 2) and the ramp. *)
Lemma point_plot_data_draws_the_current_series_witness :
  exists s0 s1,
    small_point = inr s0 /\
    PointDetector.update_data s0 ramp_field = inr s1 /\
    PointDetector.plot_data s0 =
      Build_SceneList None
        [Build_Axis [] [add_line [Exact 0; Exact 1] [Exact 0; Exact 0]]] /\
    PointDetector.plot_data s1 =
      Build_SceneList None
        [Build_Axis [] [add_line [Exact 0; Exact 1] [Exact 6; Exact (-6)]]].
Proof.
  destruct small_point as [e | s0] eqn:E; [vm_compute in E; discriminate |].
  assert (F : 0 <= Position.x_index (PointDetector.position s0) < Z.of_nat 3
              /\ 0 <= Position.y_index (PointDetector.position s0) < Z.of_nat 3).
  { vm_compute in E. injection E as <-. simpl. lia. }
  destruct F as (Hx & Hy).
  destruct (point_plot_data_draws_the_current_series (unit_grid 3 3 2)
              (Value (Exact 1), Value (Exact 2)) s0 ramp_field 2 3 3
              E eq_refl eq_refl Hx Hy)
    as (P0 & s1 & samples & U & P1 & _ & _).
  exists s0, s1. split; [reflexivity |]. split; [exact U |].
  vm_compute in E. injection E as <-.
  split; [reflexivity |].
  vm_compute in U. injection U as <-. reflexivity.
Defined.

(** X12 on the 3 x 3 ring and the point detector at (1, 2). *)
Lemma overlays_append_and_ignore_data_witness :
  exists c p,
    small_ring = inr c /\ small_point = inr p /\
    length (artists (PointDetector.add_to_ax p
                       (CircularDetector.add_to_ax c (Build_Axis [] [])))) = 2%nat.
Proof.
  destruct small_ring as [e | c] eqn:Ec; [vm_compute in Ec; discriminate |].
  destruct small_point as [e | p] eqn:Ep; [vm_compute in Ep; discriminate |].
  exists c, p. split; [reflexivity |]. split; [reflexivity |].
  destruct (overlays_append_and_ignore_data c p (Build_Axis [] [])) as (_ & A & _).
  rewrite A. reflexivity.
Defined.

(** X13 on the 3 x 3 ring. *)
Lemma circular_empty_history_witness :
  exists self self' angles,
    small_ring = inr self /\
    CircularDetector.update_data self empty_field = inr self' /\
    CircularDetector.angle_list self' = Some angles /\
    CircularDetector.plot_data self' CircularDetector.default_slc = inl IndexError.
Proof.
  destruct small_ring as [e | self] eqn:E; [vm_compute in E; discriminate |].
  assert (Sg : shape (CircularDetector.grid self) = (3%nat, 3%nat)).
  { vm_compute in E. injection E as <-. reflexivity. }
  destruct (circular_empty_history self empty_field 3 3
              (small_ring_reachable self E) eq_refl Sg)
    as (self' & angles & U & Ea & P & _).
  exists self, self', angles. repeat (split; trivial).
Defined.

